(** * OCI compartment and policy browser: configuration store, credential
    modes, root-id memoisation and the client navigation controller.

    The development embeds the functions of [backend/index.js] and of the
    [CompartmentBrowser] component as Rocq functions and proves the
    properties of the specification about them.

    Conventions of the embedding.
    - JavaScript values that the code inspects dynamically (query
      parameters, parsed JSON bodies, React state holding them) are values
      of [jsval]; [truthy], [js_or] and [prop] follow the language.
    - Strings are sequences of code units; the development keeps to code
      units below 256, so the line terminators are LF and CR and the
      white space of [trim] is TAB, LF, VT, FF, CR, SPACE and NBSP.
    - The plain object [profileData] is a [gmap string string].
    - File reads, the metadata service, the identity service and HTTP
      fetches are inputs of the functions (the outcome the environment
      gives); the calls the code issues are recorded in a log. *)

From Stdlib Require Import ZArith Ascii.
From stdpp Require Import base option list strings gmap fin_maps.

Set Warnings "-register-all".

(** ** JavaScript values *)

Inductive jsval : Type :=
  | JUndefined
  | JNull
  | JBool (b : bool)
  | JNum (n : Z)
  | JStr (s : string)
  | JArr (items : list jsval)
  | JObj (fields : list (string * jsval)).

(** ToBoolean. *)
Definition truthy (v : jsval) : bool :=
  match v with
  | JUndefined | JNull => false
  | JBool b => b
  | JNum n => negb (n =? 0)%Z
  | JStr s => match s with EmptyString => false | _ => true end
  | JArr _ | JObj _ => true
  end.

(** [a || b]. *)
Definition js_or (a b : jsval) : jsval := if truthy a then a else b.

(** [v === s] for a string [s]. *)
Definition strict_eq_str (v : jsval) (s : string) : bool :=
  match v with
  | JStr t => bool_decide (t = s)
  | _ => false
  end.

(** Own property of a parsed object; the last binding of a repeated key is
    the one [JSON.parse] keeps. *)
Fixpoint lookup_field (k : string) (fields : list (string * jsval)) : jsval :=
  match fields with
  | [] => JUndefined
  | (k', v) :: rest =>
      match lookup_field k rest with
      | JUndefined => if bool_decide (k' = k) then v else JUndefined
      | w => w
      end
  end.

(** [v.k] for the property names the code reads ([id], [name],
    [compartmentId], [error]): [None] is the TypeError raised on [null] and
    [undefined]; primitives and arrays have no such property. *)
Definition prop (v : jsval) (k : string) : option jsval :=
  match v with
  | JUndefined | JNull => None
  | JObj fields => Some (lookup_field k fields)
  | _ => Some JUndefined
  end.

(** ** Strings *)

Definition LF : ascii := "010"%char.
Definition CR : ascii := "013"%char.

(** Line terminators recognised by [^] under the [m] flag. *)
Definition is_line_terminator (c : ascii) : bool :=
  bool_decide (c = LF) || bool_decide (c = CR).

(** White space removed by [String.prototype.trim]. *)
Definition is_white_space (c : ascii) : bool :=
  match c with
  | "009" | "010" | "011" | "012" | "013" | " " | "160" => true
  | _ => false
  end%char.

Fixpoint trimStart (s : string) : string :=
  match s with
  | String c rest => if is_white_space c then trimStart rest else s
  | EmptyString => EmptyString
  end.

Definition trimEnd (s : string) : string :=
  String.rev (trimStart (String.rev s)).

Definition trim (s : string) : string := trimEnd (trimStart s).

Definition startsWith (c : ascii) (s : string) : bool :=
  match s with
  | String c' _ => bool_decide (c' = c)
  | EmptyString => false
  end.

Definition nonempty (s : string) : bool :=
  match s with EmptyString => false | _ => true end.

(** [s.indexOf(c)]; [None] stands for [-1]. *)
Fixpoint indexOf (c : ascii) (s : string) : option nat :=
  match s with
  | EmptyString => None
  | String c' rest =>
      if bool_decide (c' = c) then Some 0 else S <$> indexOf c rest
  end.

(** [s.slice(0, n)]. *)
Fixpoint slice_to (n : nat) (s : string) : string :=
  match n, s with
  | S n', String c rest => String c (slice_to n' rest)
  | _, _ => EmptyString
  end.

(** [s.slice(n)]. *)
Fixpoint slice_from (n : nat) (s : string) : string :=
  match n, s with
  | S n', String _ rest => slice_from n' rest
  | _, _ => s
  end.

(** [content.split(/\r?\n/)]: a break at every LF, which takes a CR
    standing immediately before it. [cur] holds the current line
    reversed. *)
Fixpoint split_lines_go (cur : string) (s : string) : list string :=
  match s with
  | EmptyString => [String.rev cur]
  | String c rest =>
      if bool_decide (c = LF) then String.rev cur :: split_lines_go EmptyString rest
      else
        match rest with
        | String c2 rest2 =>
            if bool_decide (c = CR) && bool_decide (c2 = LF)
            then String.rev cur :: split_lines_go EmptyString rest2
            else split_lines_go (String c cur) rest
        | EmptyString => split_lines_go (String c cur) rest
        end
  end.

Definition split_lines (content : string) : list string :=
  split_lines_go EmptyString content.

(** ** ConfigStore *)

Module ConfigStore.

(** The part [([^\]]+)\]] of the header expression, read at [s]: the
    characters before the first closing bracket, of which there must be at
    least one. *)
Fixpoint until_close (acc : string) (s : string) : option string :=
  match s with
  | EmptyString => None
  | String c rest =>
      if bool_decide (c = "]"%char)
      then (if nonempty acc then Some (String.rev acc) else None)
      else until_close (String c acc) rest
  end.

(** [line.match(/^\[([^\]]+)\]/)]: capture group 1, or [None] for no
    match. *)
Definition match_header (line : string) : option string :=
  match line with
  | String c rest => if bool_decide (c = "["%char) then until_close EmptyString rest else None
  | EmptyString => None
  end.

(** The loop [while ((match = profileRegex.exec(content)))] with
    [/^\[([^\]]+)\]/gm]. An attempt starts at an opening bracket that
    stands at the beginning of the text or behind a line terminator
    ([bol]); as the class excludes only the closing bracket, the attempt
    runs to the first closing bracket, line breaks included, and matches
    when at least one character lies between; [cand] holds the characters
    read so far in an attempt, reversed. The search resumes behind a match,
    and an attempt that finds no closing bracket leaves none for a later
    one. *)
Fixpoint exec_all (bol : bool) (cand : option string) (content : string)
  : list string :=
  match content with
  | EmptyString => []
  | String c rest =>
      match cand with
      | Some acc =>
          if bool_decide (c = "]"%char)
          then (if nonempty acc
                then String.rev acc :: exec_all false None rest
                else exec_all false None rest)
          else exec_all false (Some (String c acc)) rest
      | None =>
          if bol && bool_decide (c = "["%char)
          then exec_all false (Some EmptyString) rest
          else exec_all (is_line_terminator c) None rest
      end
  end.

(** [listOciProfiles]; [file] is what [fs.readFileSync] yields, [None]
    when it throws. *)
Definition listOciProfiles (file : option string) : list string :=
  match file with
  | Some content => exec_all true None content
  | None => []
  end.

(** [profileData[key] = val] on a plain object: an assignment of a string
    to [__proto__] reaches the setter of [Object.prototype], which ignores
    a value that is no object, so no own property appears. *)
Definition obj_set (key val : string) (profileData : gmap string string)
  : gmap string string :=
  if bool_decide (key = "__proto__") then profileData
  else <[key := val]> profileData.

(** The part of a line left and right of the first [=], trimmed. *)
Definition key_value (line : string) : option (string * string) :=
  match indexOf "="%char line with
  | Some idx =>
      let key := trim (slice_to idx line) in
      let val := trim (slice_from (idx + 1) line) in
      Some (key, val)
  | None => None
  end.

(** [line.trim() && !line.trim().startsWith('#')]: the line is neither
    blank nor a comment. *)
Definition content_line (line : string) : bool :=
  nonempty (trim line) && negb (startsWith "#"%char (trim line)).

(** One turn of the loop [for (const line of lines)] over the pair
    [(inProfile, profileData)]. *)
Definition profile_step (profileName : jsval)
    (st : bool * gmap string string) (line : string)
  : bool * gmap string string :=
  let '(inProfile, profileData) := st in
  match match_header line with
  | Some header => (strict_eq_str profileName header, profileData)
  | None =>
      if inProfile && content_line line then
        match key_value line with
        | Some (key, val) => (inProfile, obj_set key val profileData)
        | None => st
        end
      else st
  end.

Definition profile_loop (profileName : jsval) (lines : list string)
  : bool * gmap string string :=
  fold_left (profile_step profileName) lines (false, ∅).

(** [loadOciProfile]; [None] is [null]. *)
Definition loadOciProfile (profileName : jsval) (file : option string)
  : option (gmap string string) :=
  match file with
  | Some content =>
      let profileData := snd (profile_loop profileName (split_lines content)) in
      if bool_decide (0 < size profileData) then Some profileData else None
  | None => None
  end.

(** *** The parsing rule in the words of the specification *)

(** The lines that stand inside a section headed [profileName], in file
    order; every header closes the section before it and opens one of its
    own name, and [inside] tells whether a section of the wanted name is
    open. *)
Fixpoint section_lines (profileName : jsval) (inside : bool)
    (lines : list string) : list string :=
  match lines with
  | [] => []
  | line :: rest =>
      match match_header line with
      | Some header =>
          section_lines profileName (strict_eq_str profileName header) rest
      | None =>
          if inside then line :: section_lines profileName inside rest
          else section_lines profileName inside rest
      end
  end.

(** A line read as [key=value]: not blank, no comment, and with an [=]. *)
Definition field_of (line : string) : option (string * string) :=
  if content_line line then key_value line else None.

(** The fields of all sections of one name, in file order. *)
Definition merged_fields (profileName : jsval) (lines : list string)
  : list (string * string) :=
  omap field_of (section_lines profileName false lines).

(** The fields assigned one after the other. *)
Definition assign_all (fields : list (string * string))
    (profileData : gmap string string) : gmap string string :=
  fold_left (λ m kv, obj_set kv.1 kv.2 m) fields profileData.

(** The value of the last field with key [key]. *)
Fixpoint last_value (key : string) (fields : list (string * string))
  : option string :=
  match fields with
  | [] => None
  | (key', val) :: rest =>
      match last_value key rest with
      | Some later => Some later
      | None => if bool_decide (key' = key) then Some val else None
      end
  end.

(** No line is a header of the wanted name. *)
Definition header_absent (profileName : jsval) (lines : list string) : Prop :=
  ∀ line header,
    line ∈ lines → match_header line = Some header →
    strict_eq_str profileName header = false.

(** Texts of the round trip: the two sections with LF, with CR LF and a
    last line break, and with a line before the first header, blanks
    around keys and values and a second [=]. *)
Definition lines_text (eol : string) (lines : list string) : string :=
  foldr (λ line text, line +:+ eol +:+ text) "" lines.

Definition two_sections : string :=
  "[a]" +:+ String LF "k=v" +:+ String LF "[b]" +:+ String LF "x=1"
        +:+ String LF "y=2".

Definition two_sections_crlf : string :=
  lines_text (String CR (String LF "")) ["[a]"; "k=v"; "[b]"; "x=1"; "y=2"].

Definition two_sections_padded : string :=
  lines_text (String LF "")
    ["stray=0"; "# configuration"; "[a]"; "k = v=w"; ""; "[b]"; "  x =  1  ";
     "# y=3"; "y=2"].

(** A profile opened twice, with another between. *)
Definition repeated_sections : string :=
  lines_text (String LF "")
    ["[p]"; "a=1"; "b=2"; "[q]"; "a=7"; "[p]"; "a=3"; "c=4"].

(** *** Shapes of texts, names and fields *)

(** [s.includes(c)]. *)
Fixpoint contains (c : ascii) (s : string) : bool :=
  match s with
  | EmptyString => false
  | String c' rest => bool_decide (c' = c) || contains c rest
  end.

Definition is_header (line : string) : bool :=
  match match_header line with
  | Some _ => true
  | None => false
  end.

(** A line as the tools that write the file leave it: no CR inside, and
    an opening bracket at its start only on a header. *)
Definition tidy_line (line : string) : bool :=
  negb (contains CR line)
  && (negb (startsWith "["%char line) || is_header line).

Definition tidy (content : string) : bool :=
  forallb tidy_line (split_lines content).

(** White space at neither end. *)
Definition trimmed (s : string) : bool :=
  negb (match s with String c _ => is_white_space c | EmptyString => false end)
  && negb (match String.rev s with
           | String c _ => is_white_space c
           | EmptyString => false
           end).

(** A header that runs over two lines. *)
Definition broken_header : string :=
  lines_text (String LF "") ["[de"; "v]"; "tenancy=ocid1.tenancy.x"].

End ConfigStore.

(** ** Server: RootResolver and the two credential modes *)

Module Backend.

Import ConfigStore.

Definition INSTANCE_PRINCIPAL_PROFILE_NAME : string := "instance-principal".

(** What the request to the metadata address comes to: the [error] event,
    or [end] with the text received, of which [parsed] is the result of
    [JSON.parse], [None] when it throws. *)
Inductive meta_outcome : Type :=
  | MetaError
  | MetaEnd (parsed : option jsval).

Inductive auth_provider : Type :=
  | InstancePrincipalsProvider
  | ConfigFileProvider (profile : jsval).

(** Calls that leave the process. *)
Inductive ext_call : Type :=
  | CallMetadata
  | CallListCompartments (provider : auth_provider) (compartmentId : jsval)
  | CallListPolicies (provider : auth_provider) (compartmentId : jsval).

Record ServerState : Type := mkServer {
  _instanceMetaTenancyOcid : jsval;
  calls : list ext_call
}.

Definition server_start : ServerState :=
  {| _instanceMetaTenancyOcid := JNull; calls := [] |}.

Definition issue (c : ext_call) (st : ServerState) : ServerState :=
  {| _instanceMetaTenancyOcid := _instanceMetaTenancyOcid st;
     calls := calls st ++ [c] |}.

Definition cache_root (v : jsval) (st : ServerState) : ServerState :=
  {| _instanceMetaTenancyOcid := v; calls := calls st |}.

(** [getInstanceTenancyOcid], from the call to the resolution of its
    promise: the value resolved with and the state left behind; [o] is the
    outcome of the metadata request, read only when the request is
    issued. *)
Definition getInstanceTenancyOcid (o : meta_outcome) (st : ServerState)
  : jsval * ServerState :=
  if truthy (_instanceMetaTenancyOcid st) then (_instanceMetaTenancyOcid st, st)
  else
    let st := issue CallMetadata st in
    match o with
    | MetaError => (JNull, st)
    | MetaEnd None => (JNull, st)
    | MetaEnd (Some meta) =>
        match prop meta "compartmentId" with
        | Some (JStr s) =>
            if nonempty s then (JStr s, cache_root (JStr s) st) else (JNull, st)
        | Some _ => (JNull, st)
        | None => (JNull, st)
        end
    end.

(** Calls made one after the other, each with the outcome the metadata
    service would give it. *)
Fixpoint root_calls (os : list meta_outcome) (st : ServerState)
  : list jsval * ServerState :=
  match os with
  | [] => ([], st)
  | o :: rest =>
      let '(v, st1) := getInstanceTenancyOcid o st in
      let '(vs, st2) := root_calls rest st1 in
      (v :: vs, st2)
  end.

Definition is_metadata_call (c : ext_call) : bool :=
  match c with CallMetadata => true | _ => false end.

Definition metadata_requests (st : ServerState) : nat :=
  length (List.filter is_metadata_call (calls st)).

(** The response a handler sends. *)
Record Response : Type := mkResponse {
  status : nat;
  body : jsval
}.

Definition error_body (msg : jsval) : jsval := JObj [("error", msg)].

(** What the process finds around it while it serves one request:
    the mode flag fixed at start, the configuration file, whether building
    the provider and the client throws (and the [message] of what is
    thrown), the answer of the metadata service, and the answer of the
    identity service: its response's [items], or the [message] of the
    error. *)
Record Env : Type := mkEnv {
  INSTANCE_PRINCIPAL_MODE : bool;
  config_file : option string;
  client_error : option jsval;
  metadata : meta_outcome;
  upstream : jsval + jsval
}.

(** The tail common to the four [try] blocks: the upstream call and the
    [catch] around it. *)
Definition call_upstream (env : Env) (c : ext_call) (fallback : string)
    (st : ServerState) : Response * ServerState :=
  let st := issue c st in
  match upstream env with
  | inl items => (mkResponse 200 (js_or items (JArr [])), st)
  | inr message => (mkResponse 500 (error_body (js_or message (JStr fallback))), st)
  end.

Definition tenancy_of (profileConfig : gmap string string) : jsval :=
  match profileConfig !! "tenancy" with
  | Some t => JStr t
  | None => JUndefined
  end.

(** [app.get('/api/compartments')]. *)
Definition get_compartments (env : Env) (profile parent : jsval)
    (st : ServerState) : Response * ServerState :=
  let fallback := "Failed to list compartments" in
  if INSTANCE_PRINCIPAL_MODE env then
    if negb (strict_eq_str profile INSTANCE_PRINCIPAL_PROFILE_NAME) then
      (mkResponse 400 (error_body (JStr "Profile must be 'instance-principal' in this mode")), st)
    else
      match client_error env with
      | Some message => (mkResponse 500 (error_body (js_or message (JStr fallback))), st)
      | None =>
          let '(tenancyId, st) := getInstanceTenancyOcid (metadata env) st in
          if negb (truthy tenancyId) then
            (mkResponse 500 (error_body (JStr "Unable to get tenancy OCID from instance metadata")), st)
          else
            let compartmentId := js_or parent tenancyId in
            call_upstream env (CallListCompartments InstancePrincipalsProvider compartmentId) fallback st
      end
  else
    if negb (truthy profile) then
      (mkResponse 400 (error_body (JStr "Missing profile")), st)
    else
      match loadOciProfile profile (config_file env) with
      | None => (mkResponse 404 (error_body (JStr "Profile not found")), st)
      | Some profileConfig =>
          match client_error env with
          | Some message => (mkResponse 500 (error_body (js_or message (JStr fallback))), st)
          | None =>
              let compartmentId := js_or parent (tenancy_of profileConfig) in
              call_upstream env (CallListCompartments (ConfigFileProvider profile) compartmentId) fallback st
          end
      end.

(** [app.get('/api/policies')]. *)
Definition get_policies (env : Env) (profile compartmentId : jsval)
    (st : ServerState) : Response * ServerState :=
  let fallback := "Failed to list policies" in
  if INSTANCE_PRINCIPAL_MODE env then
    if negb (strict_eq_str profile INSTANCE_PRINCIPAL_PROFILE_NAME) then
      (mkResponse 400 (error_body (JStr "Profile must be 'instance-principal' in this mode")), st)
    else if negb (truthy compartmentId) then
      (mkResponse 400 (error_body (JStr "Missing compartmentId")), st)
    else
      match client_error env with
      | Some message => (mkResponse 500 (error_body (js_or message (JStr fallback))), st)
      | None =>
          call_upstream env (CallListPolicies InstancePrincipalsProvider compartmentId) fallback st
      end
  else
    if negb (truthy profile) || negb (truthy compartmentId) then
      (mkResponse 400 (error_body (JStr "Missing profile or compartmentId")), st)
    else
      match loadOciProfile profile (config_file env) with
      | None => (mkResponse 404 (error_body (JStr "Profile not found")), st)
      | Some profileConfig =>
          match client_error env with
          | Some message => (mkResponse 500 (error_body (js_or message (JStr fallback))), st)
          | None =>
              call_upstream env (CallListPolicies (ConfigFileProvider profile) compartmentId) fallback st
          end
      end.

(** *** Outcomes of the metadata request in the words of the specification *)

(** The response is structured and carries the non-empty string [s] as
    its [compartmentId]. *)
Definition yields_root (o : meta_outcome) (s : string) : Prop :=
  ∃ meta, o = MetaEnd (Some meta) ∧ prop meta "compartmentId" = Some (JStr s) ∧ s ≠ "".

(** Network error, or a response without a non-empty [compartmentId]
    string. *)
Definition fails (o : meta_outcome) : Prop := ∀ s, ¬ yields_root o s.

(** Handling in profile mode goes through the lookup in the configuration
    and nothing else: an unknown name is not found, with no call made, and
    a configured one reaches the identity service with the provider of
    that name (or fails building it). *)
Definition by_config_lookup (env : Env) (profileName parent compartmentId : jsval)
    (st : ServerState) : Prop :=
  match loadOciProfile profileName (config_file env) with
  | None =>
      get_compartments env profileName parent st
      = (mkResponse 404 (error_body (JStr "Profile not found")), st)
      ∧ (truthy compartmentId = true →
         get_policies env profileName compartmentId st
         = (mkResponse 404 (error_body (JStr "Profile not found")), st))
  | Some profileConfig =>
      match client_error env with
      | None =>
          get_compartments env profileName parent st
          = call_upstream env
              (CallListCompartments (ConfigFileProvider profileName)
                 (js_or parent (tenancy_of profileConfig)))
              "Failed to list compartments" st
          ∧ (truthy compartmentId = true →
             get_policies env profileName compartmentId st
             = call_upstream env
                 (CallListPolicies (ConfigFileProvider profileName) compartmentId)
                 "Failed to list policies" st)
      | Some message =>
          get_compartments env profileName parent st
          = (mkResponse 500
               (error_body (js_or message (JStr "Failed to list compartments"))), st)
          ∧ (truthy compartmentId = true →
             get_policies env profileName compartmentId st
             = (mkResponse 500
                  (error_body (js_or message (JStr "Failed to list policies"))), st))
      end
  end.

Definition sentinel_required : Response :=
  mkResponse 400
    (error_body (JStr "Profile must be 'instance-principal' in this mode")).

(** A reply of the metadata service, and replies that carry no root id. *)
Definition metadata_reply : meta_outcome :=
  MetaEnd (Some (JObj [("displayName", JStr "host");
                       ("compartmentId", JStr "ocid1.tenancy.x")])).

Definition useless_replies : list meta_outcome :=
  [MetaError; MetaEnd None; MetaEnd (Some JNull);
   MetaEnd (Some (JObj [("compartmentId", JStr "")]));
   MetaEnd (Some (JObj [("compartmentId", JNum 7)]))].

(** A process in profile mode whose configuration holds the profile
    [dev], and the same machine started in instance-principal mode. *)
Definition dev_config : string :=
  "[dev]" +:+ String LF "tenancy=ocid1.tenancy.x" +:+ String LF "region=us-ashburn-1".

Definition profile_mode_env : Env :=
  {| INSTANCE_PRINCIPAL_MODE := false; config_file := Some dev_config;
     client_error := None; metadata := MetaError;
     upstream := inl (JArr []) |}.

Definition instance_mode_env : Env :=
  {| INSTANCE_PRINCIPAL_MODE := true; config_file := Some dev_config;
     client_error := None; metadata := metadata_reply;
     upstream := inl (JArr []) |}.

(** *** The remaining route and the two routes taken together *)

(** [app.get('/api/profiles')]: the body sent. The [catch] of the handler
    is never entered: [listOciProfiles] catches the failed read itself. *)
Definition get_profiles (env : Env) : Response :=
  let profiles :=
    if INSTANCE_PRINCIPAL_MODE env then [INSTANCE_PRINCIPAL_PROFILE_NAME]
    else listOciProfiles (config_file env) in
  mkResponse 200 (JObj [("profiles", JArr (JStr <$> profiles))]).

Inductive endpoint : Type :=
  | ApiCompartments
  | ApiPolicies.

(** A request to one of the two routes; [arg] is [parent] or
    [compartmentId]. *)
Definition handle (ep : endpoint) (env : Env) (profile arg : jsval)
    (st : ServerState) : Response * ServerState :=
  match ep with
  | ApiCompartments => get_compartments env profile arg st
  | ApiPolicies => get_policies env profile arg st
  end.

Definition is_identity_call (c : ext_call) : bool :=
  match c with CallMetadata => false | _ => true end.

(** The same machine whose metadata service is down. *)
Definition instance_mode_offline : Env :=
  {| INSTANCE_PRINCIPAL_MODE := true; config_file := Some dev_config;
     client_error := None; metadata := MetaError;
     upstream := inl (JArr []) |}.

(** A request as the process receives it, with what it finds around it at
    that time, and requests served one after the other. *)
Record api_request : Type := mkRequest {
  req_endpoint : endpoint;
  req_env : Env;
  req_profile : jsval;
  req_arg : jsval
}.

Definition serve_all (requests : list api_request) (st : ServerState)
  : ServerState :=
  fold_left
    (λ st r, (handle (req_endpoint r) (req_env r) (req_profile r) (req_arg r) st).2)
    requests st.

(** The same machine when building the provider throws. *)
Definition instance_mode_unbuilt : Env :=
  {| INSTANCE_PRINCIPAL_MODE := true; config_file := Some dev_config;
     client_error := Some (JStr "oci.auth.InstancePrincipalsAuthenticationDetailsProvider is not a constructor");
     metadata := MetaError; upstream := inl (JArr []) |}.

Definition profile_mode_unbuilt : Env :=
  {| INSTANCE_PRINCIPAL_MODE := false; config_file := Some dev_config;
     client_error := Some (JStr "oci.auth.ConfigFileAuthenticationDetailsProvider is not a constructor");
     metadata := MetaError; upstream := inl (JArr []) |}.

End Backend.

(** ** Client: NavigationController ([CompartmentBrowser]) *)

Module Frontend.

(** An element of [compartmentStack]. *)
Record entry : Type := mkEntry {
  id : jsval;
  name : jsval
}.

(** A request to the server boundary, by path and query values (the URL
    is these behind [API_ROOT], each passed through
    [encodeURIComponent]); [parent] is present when [parentId] is
    truthy. *)
Inductive request : Type :=
  | GetCompartments (profile : string) (parent : option jsval)
  | GetPolicies (profile : string) (compartmentId : jsval).

(** What the callbacks of a fetch hold in their closure: those of
    [fetchChildren] hold its arguments and the [selectedProfile] of the
    render that called it, through [fetchPolicies]; those of
    [fetchPolicies] hold setters only. *)
Inductive continuation : Type :=
  | KChildren (profile : string) (parentId : jsval) (setRootId : bool)
  | KPolicies.

Record fetch : Type := mkFetch {
  url : request;
  k : continuation
}.

(** React state of [App] and [CompartmentBrowser] that the controller
    works on. The list of profile names and its loading flag, filled once
    at mount, stay outside. *)
Record Session : Type := mkSession {
  selectedProfile : string;
  profileRootId : jsval;
  compartmentStack : list entry;
  compartments : list jsval;
  policies : list jsval;
  loadingCompartments : bool;
  loadingPolicies : bool;
  error : jsval
}.

(** The session and every fetch issued so far, in order. *)
Record World : Type := mkWorld {
  sess : Session;
  fetches : list fetch
}.

Definition sent (w : World) : list request := url <$> fetches w.

Definition initial : World :=
  {| sess := {| selectedProfile := ""; profileRootId := JStr "";
                compartmentStack := []; compartments := []; policies := [];
                loadingCompartments := false; loadingPolicies := false;
                error := JStr "" |};
     fetches := [] |}.

(** The setters of [useState]; each replaces one piece of state. *)

Definition setSelectedProfile (w : World) (v : string) : World :=
  let s := sess w in
  mkWorld (mkSession v (profileRootId s) (compartmentStack s) (compartments s)
             (policies s) (loadingCompartments s) (loadingPolicies s) (error s))
          (fetches w).

Definition setProfileRootId (w : World) (v : jsval) : World :=
  let s := sess w in
  mkWorld (mkSession (selectedProfile s) v (compartmentStack s) (compartments s)
             (policies s) (loadingCompartments s) (loadingPolicies s) (error s))
          (fetches w).

Definition setCompartmentStack (w : World) (v : list entry) : World :=
  let s := sess w in
  mkWorld (mkSession (selectedProfile s) (profileRootId s) v (compartments s)
             (policies s) (loadingCompartments s) (loadingPolicies s) (error s))
          (fetches w).

Definition setCompartments (w : World) (v : list jsval) : World :=
  let s := sess w in
  mkWorld (mkSession (selectedProfile s) (profileRootId s) (compartmentStack s) v
             (policies s) (loadingCompartments s) (loadingPolicies s) (error s))
          (fetches w).

Definition setPolicies (w : World) (v : list jsval) : World :=
  let s := sess w in
  mkWorld (mkSession (selectedProfile s) (profileRootId s) (compartmentStack s)
             (compartments s) v (loadingCompartments s) (loadingPolicies s) (error s))
          (fetches w).

Definition setLoadingCompartments (w : World) (v : bool) : World :=
  let s := sess w in
  mkWorld (mkSession (selectedProfile s) (profileRootId s) (compartmentStack s)
             (compartments s) (policies s) v (loadingPolicies s) (error s))
          (fetches w).

Definition setLoadingPolicies (w : World) (v : bool) : World :=
  let s := sess w in
  mkWorld (mkSession (selectedProfile s) (profileRootId s) (compartmentStack s)
             (compartments s) (policies s) (loadingCompartments s) v (error s))
          (fetches w).

Definition setError (w : World) (v : jsval) : World :=
  let s := sess w in
  mkWorld (mkSession (selectedProfile s) (profileRootId s) (compartmentStack s)
             (compartments s) (policies s) (loadingCompartments s) (loadingPolicies s) v)
          (fetches w).

(** [fetch(url)] with the callbacks chained on it. *)
Definition do_fetch (w : World) (r : request) (c : continuation) : World :=
  mkWorld (sess w) (fetches w ++ [mkFetch r c]).

(** *** Promises *)

Inductive promise (A : Type) : Type :=
  | Fulfilled (a : A)
  | Rejected.
Arguments Fulfilled {A} a.
Arguments Rejected {A}.

(** A callback runs on the world and returns normally or throws
    ([Rejected]); what it did before throwing stays done. *)
Definition callback (A B : Type) : Type := A → World → World * promise B.

Definition then_ {A B : Type} (p : promise A) (f : callback A B) (w : World)
  : World * promise B :=
  match p with
  | Fulfilled a => f a w
  | Rejected => (w, Rejected)
  end.

Definition catch_ {A : Type} (p : promise A) (h : callback unit A) (w : World)
  : World * promise A :=
  match p with
  | Fulfilled a => (w, Fulfilled a)
  | Rejected => h tt w
  end.

(** What a fetch comes to: the request fails, or a response arrives whose
    body [r.json()] parses ([Some]) or rejects. *)
Inductive outcome : Type :=
  | NetworkFailure
  | Responded (json : option jsval).

Definition fetch_promise (o : outcome) : promise (option jsval) :=
  match o with
  | NetworkFailure => Rejected
  | Responded r => Fulfilled r
  end.

(** [(r) => r.json()]. *)
Definition to_json : callback (option jsval) jsval :=
  λ r w, (w, match r with Some data => Fulfilled data | None => Rejected end).

(** *** The controller *)

(** [fetchPolicies], with the [selectedProfile] of its closure. *)
Definition fetchPolicies (profile : string) (compartmentId : jsval) (w : World)
  : World :=
  if negb (nonempty profile) || negb (truthy compartmentId) then
    setPolicies w []
  else
    let w := setLoadingPolicies w true in
    let w := setError w (JStr "") in
    do_fetch w (GetPolicies profile compartmentId) KPolicies.

Definition policies_then : callback jsval unit :=
  λ data w,
    match data with
    | JArr items =>
        let w := setPolicies w items in
        (setLoadingPolicies w false, Fulfilled tt)
    | _ =>
        match prop data "error" with
        | None => (w, Rejected)
        | Some e =>
            let w := setError w (js_or e (JStr "Unexpected response")) in
            let w := setPolicies w [] in
            (setLoadingPolicies w false, Fulfilled tt)
        end
    end.

Definition policies_catch : callback unit unit :=
  λ _ w,
    let w := setError w (JStr "Failed to load policies.") in
    let w := setPolicies w [] in
    (setLoadingPolicies w false, Fulfilled tt).

(** [setRootId && data.length > 0 && data[0].compartmentId]; [None] when
    reading the property throws. *)
Definition root_hint (setRootId : bool) (items : list jsval) : option jsval :=
  if setRootId then
    match items with
    | [] => Some (JBool false)
    | first :: _ => prop first "compartmentId"
    end
  else Some (JBool false).

Definition children_then (profile : string) (parentId : jsval) (setRootId : bool)
  : callback jsval unit :=
  λ data w,
    match data with
    | JArr items =>
        let w := setCompartments w items in
        match root_hint setRootId items with
        | None => (w, Rejected)
        | Some hint =>
            let w := if truthy hint then setProfileRootId w hint else w in
            let w := fetchPolicies profile (if truthy hint then hint else parentId) w in
            (setLoadingCompartments w false, Fulfilled tt)
        end
    | _ =>
        match prop data "error" with
        | None => (w, Rejected)
        | Some e =>
            let w := setError w (js_or e (JStr "Unexpected response")) in
            let w := setCompartments w [] in
            (setLoadingCompartments w false, Fulfilled tt)
        end
    end.

Definition children_catch : callback unit unit :=
  λ _ w,
    let w := setError w (JStr "Failed to load compartments.") in
    let w := setCompartments w [] in
    (setLoadingCompartments w false, Fulfilled tt).

(** [fetchChildren], with the [selectedProfile] of its closure; an
    [undefined] argument takes the default [''] . *)
Definition fetchChildren (profile : string) (parentId : jsval) (setRootId : bool)
    (w : World) : World :=
  let parentId := match parentId with JUndefined => JStr "" | v => v end in
  if negb (nonempty profile) then w
  else
    let w := setLoadingCompartments w true in
    let w := setError w (JStr "") in
    do_fetch w
      (GetCompartments profile (if truthy parentId then Some parentId else None))
      (KChildren profile parentId setRootId).

(** [fetch(url).then((r) => r.json()).then(...).catch(...)] once the fetch
    has come to [o]: the world left behind and the state of the last
    promise of the chain. *)
Definition settle_chain (c : continuation) (o : outcome) (w : World)
  : World * promise unit :=
  let '(w, p) := then_ (fetch_promise o) to_json w in
  match c with
  | KChildren profile parentId setRootId =>
      let '(w, p) := then_ p (children_then profile parentId setRootId) w in
      catch_ p children_catch w
  | KPolicies =>
      let '(w, p) := then_ p policies_then w in
      catch_ p policies_catch w
  end.

(** [handleDrilldown]; reading [c.id] of [null] throws before any state
    is set. *)
Definition handleDrilldown (c : jsval) (w : World) : World :=
  match prop c "id", prop c "name" with
  | Some c_id, Some c_name =>
      let profile := selectedProfile (sess w) in
      let w := setCompartmentStack w
                 (compartmentStack (sess w) ++ [mkEntry c_id c_name]) in
      let w := fetchChildren profile c_id false w in
      fetchPolicies profile c_id w
  | _, _ => w
  end.

(** [handleBack]; [removelast] is [slice(0, -1)]. *)
Definition handleBack (w : World) : World :=
  let profile := selectedProfile (sess w) in
  let newStack := removelast (compartmentStack (sess w)) in
  let parentId :=
    match last newStack with
    | None => profileRootId (sess w)
    | Some top => id top
    end in
  let w := setCompartmentStack w newStack in
  let w := fetchChildren profile parentId false w in
  fetchPolicies profile parentId w.

Definition handleProfileChange (profile : string) (w : World) : World :=
  let w := setSelectedProfile w profile in
  let w := setCompartments w [] in
  let w := setPolicies w [] in
  let w := setCompartmentStack w [] in
  setProfileRootId w (JStr "").

(** The effect on [[selectedProfile]], run after the render that shows a
    changed value. *)
Definition selectedProfile_effect (w : World) : World :=
  let profile := selectedProfile (sess w) in
  if nonempty profile then
    let w := setCompartmentStack w [] in
    fetchChildren profile (JStr "") true w
  else
    let w := setCompartments w [] in
    let w := setPolicies w [] in
    let w := setCompartmentStack w [] in
    setProfileRootId w (JStr "").

(** Events the component handles, one at a time: the three user actions,
    and the settling of the fetch issued [i]-th. *)
Inductive event : Type :=
  | SelectProfile (profile : string)
  | Drilldown (c : jsval)
  | Back
  | Settle (i : nat) (o : outcome).

Definition step (w : World) (e : event) : World :=
  match e with
  | SelectProfile profile =>
      let changed := negb (bool_decide (profile = selectedProfile (sess w))) in
      let w := handleProfileChange profile w in
      if changed then selectedProfile_effect w else w
  | Drilldown c => handleDrilldown c w
  | Back => handleBack w
  | Settle i o =>
      match fetches w !! i with
      | Some f => fst (settle_chain (k f) o w)
      | None => w
      end
  end.

Definition run (events : list event) (w : World) : World :=
  fold_left step events w.

(** *** Navigation in the words of the specification *)

(** Drill-down into a node (an object of the listing) and back. *)
Inductive nav : Type :=
  | Drill (c : list (string * jsval))
  | GoBack.

Definition nav_event (n : nav) : event :=
  match n with
  | Drill c => Drilldown (JObj c)
  | GoBack => Back
  end.

Definition entry_of (c : list (string * jsval)) : entry :=
  mkEntry (lookup_field "id" c) (lookup_field "name" c).

(** The entries pushed by a sequence, in push order. *)
Fixpoint pushed (ops : list nav) : list entry :=
  match ops with
  | [] => []
  | Drill c :: rest => entry_of c :: pushed rest
  | GoBack :: rest => pushed rest
  end.

Fixpoint drills (ops : list nav) : nat :=
  match ops with
  | [] => 0
  | Drill _ :: rest => S (drills rest)
  | GoBack :: rest => drills rest
  end.

Fixpoint backs (ops : list nav) : nat :=
  match ops with
  | [] => 0
  | Drill _ :: rest => backs rest
  | GoBack :: rest => S (backs rest)
  end.

Definition stack_after (ops : list nav) (w : World) : list entry :=
  compartmentStack (sess (run (nav_event <$> ops) w)).

(** The stack invariant as the specification words it. *)
Definition stack_invariant_as_stated (ops : list nav) (w : World) : Prop :=
  compartmentStack (sess w) = [] →
  backs ops ≤ drills ops →
  length (stack_after ops w) = drills ops - backs ops
  ∧ stack_after ops w = take (drills ops - backs ops) (pushed ops).

(** Back is asked for only at a non-empty stack, of which [depth] is the
    length: the component shows the Back button under
    [compartmentStack.length > 0]. *)
Fixpoint back_guarded (depth : nat) (ops : list nav) : bool :=
  match ops with
  | [] => true
  | Drill _ :: rest => back_guarded (S depth) rest
  | GoBack :: rest =>
      match depth with
      | 0 => false
      | S depth' => back_guarded depth' rest
      end
  end.

(** The requests issued by handling [e] in [w]. *)
Definition issued_by (e : event) (w : World) : list request :=
  drop (length (fetches w)) (sent (step w e)).

(** The edge policy as the specification words it, for the fetch issued
    [i]-th: when it is a children-fetch and settles with an array of no
    items, a policies-fetch goes out. *)
Definition leaf_policies_as_stated (i : nat) (w : World) : Prop :=
  ∀ f profile parentId setRootId,
    fetches w !! i = Some f →
    k f = KChildren profile parentId setRootId →
    ∃ compartmentId,
      GetPolicies profile compartmentId
        ∈ issued_by (Settle i (Responded (Some (JArr [])))) w.



(** The list a fetch loads. *)
Definition loaded_list (c : continuation) (s : Session) : list jsval :=
  match c with
  | KChildren _ _ _ => compartments s
  | KPolicies => policies s
  end.

(** What the two handlers do to the stack. *)
Definition apply_nav (stack : list entry) (op : nav) : list entry :=
  match op with
  | Drill c => stack ++ [entry_of c]
  | GoBack => removelast stack
  end.

(** A fetch as [fetchChildren] and [fetchPolicies] issue it: its request
    is built from what its callbacks hold, and the guards were passed. *)
Definition well_formed (f : fetch) : Prop :=
  match k f with
  | KChildren profile parentId setRootId =>
      nonempty profile = true
      ∧ parentId ≠ JUndefined
      ∧ url f = GetCompartments profile
                  (if truthy parentId then Some parentId else None)
  | KPolicies =>
      ∃ profile compartmentId,
        url f = GetPolicies profile compartmentId
        ∧ nonempty profile = true ∧ truthy compartmentId = true
  end.

(** Nodes of a listing. *)
Definition sales : list (string * jsval) :=
  [("id", JStr "ocid1.compartment.y"); ("name", JStr "Sales");
   ("compartmentId", JStr "ocid1.tenancy.x")].

Definition billing : list (string * jsval) :=
  [("id", JStr "ocid1.compartment.z"); ("name", JStr "Billing");
   ("compartmentId", JStr "ocid1.tenancy.x")].

(** The session after the profile [dev] was chosen at the start. *)
Definition dev_selected : World := run [SelectProfile "dev"] initial.

(** The policies list as a policies response leaves it. *)
Definition policies_after (o : outcome) (w : World) : list jsval :=
  policies (sess (fst (settle_chain KPolicies o w))).

(** The end-to-end scenario up to the drill-down into [sales]: the
    profile is chosen, the root listing arrives with [sales] in it, and
    the node is clicked. The fetches are then, in order: children of the
    root, policies of the root, children of [sales], policies of
    [sales]. *)
Definition dev_drilled : list event :=
  [SelectProfile "dev";
   Settle 0 (Responded (Some (JArr [JObj sales; JObj billing])));
   Drilldown (JObj sales)].

(** The session once the root listing has arrived. *)
Definition root_listed : World :=
  run [SelectProfile "dev";
       Settle 0 (Responded (Some (JArr [JObj sales; JObj billing])))] initial.


(** *** What the component derives and shows *)


(** [currentCompartmentName]. *)
Definition currentCompartmentName (s : Session) : jsval :=
  match last (compartmentStack s) with
  | None => JStr "(Tenancy Root)"
  | Some top => name top
  end.

(** The loading flag a fetch raises and its callbacks lower. *)
Definition loading_flag (c : continuation) (s : Session) : bool :=
  match c with
  | KChildren _ _ _ => loadingCompartments s
  | KPolicies => loadingPolicies s
  end.


(** The component mounted anew: its own state starts over, the state
    lifted into [App] stays, and the effect on [[selectedProfile]] runs as
    on every mount. *)
Definition mount (w : World) : World :=
  let w := setCompartments w [] in
  let w := setPolicies w [] in
  let w := setLoadingCompartments w false in
  let w := setLoadingPolicies w false in
  let w := setError w (JStr "") in
  selectedProfile_effect w.

(** A fetch whose callbacks may set the root id: a listing asked for by
    the effect on the selected profile. *)
Definition sets_root (c : continuation) : bool :=
  match c with
  | KChildren _ _ setRootId => setRootId
  | KPolicies => false
  end.

(** Events that may set the root id: a change of profile, and the settling
    of a listing asked for by the effect. *)
Definition may_set_root (w : World) (e : event) : bool :=
  match e with
  | SelectProfile _ => true
  | Settle i _ =>
      match fetches w !! i with
      | Some f => sets_root (k f)
      | None => false
      end
  | Drilldown _ | Back => false
  end.

(** A root listing in which the first node names its parent. *)
Definition root_listing : list jsval := [JObj sales; JObj billing].

(** *** The error banner *)









End Frontend.

(** ** Client: the list of profiles, loaded at mount *)

Module ProfilePicker.

Import Frontend.

(** The state of the first effect of [CompartmentBrowser] beside the
    session: the list of names offered in the selector and its loading
    flag. The error message is the one of the session. *)
Record Picker : Type := mkPicker {
  world : World;
  profiles : jsval;
  loadingProfiles : bool
}.

(** The component as it mounts in [w]: [useState([])], and the flag raised
    by the effect before it fetches [/api/profiles]. *)
Definition mounted (w : World) : Picker :=
  {| world := w; profiles := JArr []; loadingProfiles := true |}.

(** [fetch(...).then((r) => r.json()).then((data) => ...).catch(...)] of the
    first effect, once the fetch has come to [o]. Reading [data.profiles]
    of [null] throws into the [catch]. *)
Definition settle_profiles (o : outcome) (p : Picker) : Picker :=
  let failed :=
    {| world := setError (world p) (JStr "Could not load profiles.");
       profiles := profiles p; loadingProfiles := false |} in
  match o with
  | NetworkFailure => failed
  | Responded None => failed
  | Responded (Some data) =>
      match prop data "profiles" with
      | None => failed
      | Some listed =>
          {| world := world p; profiles := js_or listed (JArr []);
             loadingProfiles := false |}
      end
  end.

End ProfilePicker.

(** ** Client: the two views of [App] *)

Module App.

Import Frontend.

(** The state of [App] beside what it lifts from the browser: the tab and
    the policy shown; [browser] is the state of [CompartmentBrowser],
    lifted or its own. *)
Record AppState : Type := mkApp {
  tab : string;
  selectedPolicy : jsval;
  browser : World
}.

Definition app_start : AppState :=
  {| tab := "main"; selectedPolicy := JNull; browser := initial |}.

Inductive app_event : Type :=
  | PolicyClick (policy : jsval)
  | DetailBack.

(** [handlePolicyClick] and [handleBack] of [App]. The browser is rendered
    under [tab === 'main'] only, so it is mounted anew when the tab comes
    back to [main]. *)
Definition app_step (st : AppState) (e : app_event) : AppState :=
  match e with
  | PolicyClick policy =>
      {| tab := "policyDetail"; selectedPolicy := policy; browser := browser st |}
  | DetailBack =>
      {| tab := "main"; selectedPolicy := JNull;
         browser := if bool_decide (tab st = "main") then browser st
                    else mount (browser st) |}
  end.

(** [tab === 'main' && ...]. *)
Definition shows_browser (st : AppState) : bool :=
  bool_decide (tab st = "main").

(** [tab === 'policyDetail' && selectedPolicy && ...]. *)
Definition shows_detail (st : AppState) : bool :=
  bool_decide (tab st = "policyDetail") && truthy (selectedPolicy st).

Definition clicked_policy (e : app_event) : option jsval :=
  match e with
  | PolicyClick policy => Some policy
  | DetailBack => None
  end.

End App.

(** ** Client and server joined *)

Module Wire.

Import Backend Frontend.

(** What the client reads from a response of the server: the body, sent
    by [res.json] and parsed by [r.json()]; the status is not looked
    at. *)
Definition answer (r : Response) : outcome := Responded (Some (body r)).

(** The handling of a request of the client by the server. The query
    values arrive as the strings the client encoded; ids that are no
    strings are left out ([None]). *)
Definition serve (env : Env) (r : request) (st : ServerState)
  : option (Response * ServerState) :=
  match r with
  | GetCompartments profile None =>
      Some (get_compartments env (JStr profile) JUndefined st)
  | GetCompartments profile (Some (JStr parent)) =>
      Some (get_compartments env (JStr profile) (JStr parent) st)
  | GetPolicies profile (JStr compartmentId) =>
      Some (get_policies env (JStr profile) (JStr compartmentId) st)
  | _ => None
  end.

Definition request_profile (r : request) : string :=
  match r with
  | GetCompartments profile _ => profile
  | GetPolicies profile _ => profile
  end.



End Wire.

(** * Properties *)

(** ** ConfigStore *)

Module ConfigStoreFacts.

Import ConfigStore.

Lemma obj_set_lookup key val (m : gmap string string) k :
  k ≠ "__proto__" →
  obj_set key val m !! k = if bool_decide (key = k) then Some val else m !! k.
Proof.
  intros Hk. unfold obj_set.
  destruct (bool_decide_reflect (key = "__proto__")) as [->|Hkey].
  - rewrite bool_decide_eq_false_2; [done | congruence].
  - destruct (bool_decide_reflect (key = k)) as [->|Hne].
    + apply lookup_insert_eq.
    + by apply lookup_insert_ne.
Qed.

Lemma assign_all_cons key val fields (m : gmap string string) :
  assign_all ((key, val) :: fields) m = assign_all fields (obj_set key val m).
Proof. reflexivity. Qed.

(** Reading a key after a run of assignments gives the last value assigned
    to it, or what the object held before. *)
Lemma assign_all_lookup fields (m : gmap string string) k :
  k ≠ "__proto__" →
  assign_all fields m !! k = from_option Some (m !! k) (last_value k fields).
Proof.
  intros Hk. revert m.
  induction fields as [|[key val] fields IH]; intros m; [done|].
  rewrite assign_all_cons, IH. cbn [last_value].
  destruct (last_value k fields) as [later|]; [done|].
  rewrite obj_set_lookup by done.
  by destruct (bool_decide (key = k)).
Qed.

Lemma fields_cons line lines :
  omap field_of (line :: lines)
  = match field_of line with
    | Some field => field :: omap field_of lines
    | None => omap field_of lines
    end.
Proof. reflexivity. Qed.

(** The loop of [loadOciProfile] assigns exactly the fields of the lines
    that [section_lines] picks. *)
Lemma profile_loop_from (profileName : jsval) lines inside
    (m : gmap string string) :
  snd (fold_left (profile_step profileName) lines (inside, m))
  = assign_all (omap field_of (section_lines profileName inside lines)) m.
Proof.
  revert inside m.
  induction lines as [|line lines IH]; intros inside m; [done|].
  cbn [fold_left section_lines]. unfold profile_step at 2.
  destruct (match_header line) as [header|].
  - apply IH.
  - destruct inside; cbn [andb]; [|apply IH].
    rewrite fields_cons. unfold field_of.
    destruct (content_line line); [|apply IH].
    destruct (key_value line) as [[key val]|]; apply IH.
Qed.

Lemma profile_loop_merged (profileName : jsval) lines :
  snd (profile_loop profileName lines)
  = assign_all (merged_fields profileName lines) ∅.
Proof. apply profile_loop_from. Qed.

Lemma section_lines_header_absent (profileName : jsval) lines :
  header_absent profileName lines →
  section_lines profileName false lines = [].
Proof.
  induction lines as [|line lines IH]; intros Habs; [done|].
  assert (header_absent profileName lines) as Hrest.
  { intros l h Hl. apply Habs. by right. }
  cbn [section_lines].
  destruct (match_header line) as [header|] eqn:Hh; [|by apply IH].
  rewrite (Habs line header); [by apply IH | by left | done].
Qed.

(** A header of the wanted name reopens the profile: the fields behind it
    come after those collected before it. *)
Lemma merged_fields_reopen (profileName : jsval) before header_line header after :
  match_header header_line = Some header →
  strict_eq_str profileName header = true →
  merged_fields profileName (before ++ header_line :: after)
  = merged_fields profileName before
    ++ omap field_of (section_lines profileName true after).
Proof.
  intros Hh Heq. unfold merged_fields.
  generalize false as inside.
  induction before as [|line before IH]; intros inside.
  - cbn [app section_lines]. by rewrite Hh, Heq.
  - cbn [app section_lines].
    destruct (match_header line); [apply IH|].
    destruct inside; [|apply IH].
    rewrite !fields_cons. destruct (field_of line); [|apply IH].
    cbn [app]. f_equal. apply IH.
Qed.

(** C6. Round trip of the configuration text with the sections [[a]]
    ([k=v]) and [[b]] ([x=1], [y=2]): [listOciProfiles] gives the names
    [a], [b] in file order and [loadOciProfile] of [b] gives the map of
    [x] to [1] and [y] to [2]; so with LF, with CR LF, and for the text
    with a line before the first header, blanks around keys and values and
    comments, in which the value of [k] runs behind the first [=] to the
    end of the line. *)
Theorem config_round_trip :
  listOciProfiles (Some two_sections) = ["a"; "b"]
  ∧ loadOciProfile (JStr "b") (Some two_sections)
    = Some {[ "x" := "1"; "y" := "2" ]}
  ∧ loadOciProfile (JStr "a") (Some two_sections) = Some {[ "k" := "v" ]}
  ∧ listOciProfiles (Some two_sections_crlf) = ["a"; "b"]
  ∧ loadOciProfile (JStr "b") (Some two_sections_crlf)
    = Some {[ "x" := "1"; "y" := "2" ]}
  ∧ listOciProfiles (Some two_sections_padded) = ["a"; "b"]
  ∧ loadOciProfile (JStr "b") (Some two_sections_padded)
    = Some {[ "x" := "1"; "y" := "2" ]}
  ∧ loadOciProfile (JStr "a") (Some two_sections_padded)
    = Some {[ "k" := "v=w" ]}.
Proof. repeat split; vm_compute; reflexivity. Qed.

(** C7. A configuration file that is missing or cannot be read gives the
    empty list from [listOciProfiles] and not-found ([None]) from
    [loadOciProfile] for every name; and [loadOciProfile] gives not-found
    whenever no key=value field was read for the profile, which includes
    the file without a header of that name. *)
Theorem profile_not_found (profileName : jsval) (file : option string) :
  match file with
  | None => True
  | Some content =>
      header_absent profileName (split_lines content)
      ∨ merged_fields profileName (split_lines content) = []
  end →
  listOciProfiles None = [] ∧ loadOciProfile profileName file = None.
Proof.
  intros Hfile. split; [done|].
  destruct file as [content|]; [|done].
  assert (merged_fields profileName (split_lines content) = []) as Hnone.
  { destruct Hfile as [Habs|Hnone]; [|done].
    unfold merged_fields. by rewrite section_lines_header_absent. }
  unfold loadOciProfile. by rewrite profile_loop_merged, Hnone.
Qed.

Lemma profile_not_found_witness :
  merged_fields (JStr "missing") (split_lines two_sections_padded) = []
  ∧ listOciProfiles None = []
  ∧ loadOciProfile (JStr "missing") (Some two_sections_padded) = None.
Proof.
  split; [reflexivity|].
  apply (profile_not_found (JStr "missing") (Some two_sections_padded)).
  right. reflexivity.
Defined.

(** C9. [loadOciProfile] merges all sections of the wanted name: its
    result is built from the fields of every such section taken in file
    order ([merged_fields]), a later header of that name adds the fields
    behind it to those before, and a key read in the result has the value
    of its last field. (A field named [__proto__] leaves no property, see
    [obj_set].) *)
Theorem sections_merged (profileName : jsval) (content : string) (key : string) :
  key ≠ "__proto__" →
  let fields := merged_fields profileName (split_lines content) in
  let merged := assign_all fields ∅ in
  loadOciProfile profileName (Some content)
  = (if bool_decide (0 < size merged) then Some merged else None)
  ∧ merged !! key = last_value key fields
  ∧ ∀ before header_line header after,
      split_lines content = before ++ header_line :: after →
      match_header header_line = Some header →
      strict_eq_str profileName header = true →
      fields = merged_fields profileName before
               ++ omap field_of (section_lines profileName true after).
Proof.
  intros Hkey fields merged. split; [|split].
  - unfold loadOciProfile. by rewrite profile_loop_merged.
  - unfold merged. rewrite assign_all_lookup by done.
    rewrite lookup_empty. by destruct (last_value key fields).
  - intros before header_line header after Hsplit Hh Heq.
    unfold fields. rewrite Hsplit. by eapply merged_fields_reopen.
Qed.

Lemma sections_merged_witness :
  loadOciProfile (JStr "p") (Some repeated_sections)
  = Some {[ "a" := "3"; "b" := "2"; "c" := "4" ]}
  ∧ last_value "a" (merged_fields (JStr "p") (split_lines repeated_sections))
    = Some "3".
Proof.
  destruct (sections_merged (JStr "p") repeated_sections "a") as (Hload & Hlast & _).
  - discriminate.
  - split.
    + rewrite Hload. vm_compute. reflexivity.
    + reflexivity.
Defined.

End ConfigStoreFacts.

(** ** RootResolver and mode selection *)

Module BackendFacts.

Import ConfigStore Backend.

Lemma root_cached o st :
  truthy (_instanceMetaTenancyOcid st) = true →
  getInstanceTenancyOcid o st = (_instanceMetaTenancyOcid st, st).
Proof. intros Hc. unfold getInstanceTenancyOcid. by rewrite Hc. Qed.

Lemma root_failed o st :
  truthy (_instanceMetaTenancyOcid st) = false →
  fails o →
  getInstanceTenancyOcid o st = (JNull, issue CallMetadata st).
Proof.
  intros Hc Hfail. unfold getInstanceTenancyOcid. rewrite Hc.
  destruct o as [|[meta|]]; try done.
  destruct (prop meta "compartmentId") as [[]|] eqn:Hprop; try done.
  destruct (nonempty s) eqn:Hs; [|done].
  exfalso. apply (Hfail s). exists meta. repeat split; [done|].
  by intros ->.
Qed.

Lemma root_found o s st :
  truthy (_instanceMetaTenancyOcid st) = false →
  yields_root o s →
  getInstanceTenancyOcid o st
  = (JStr s, cache_root (JStr s) (issue CallMetadata st)).
Proof.
  intros Hc (meta & -> & Hprop & Hs). unfold getInstanceTenancyOcid.
  rewrite Hc, Hprop. by destruct s.
Qed.

Lemma root_calls_cached os st :
  truthy (_instanceMetaTenancyOcid st) = true →
  root_calls os st = (replicate (length os) (_instanceMetaTenancyOcid st), st).
Proof.
  intros Hc. induction os as [|o os IH]; [done|].
  cbn [root_calls]. rewrite root_cached by done. by rewrite IH.
Qed.

Lemma root_calls_app os1 os2 st :
  root_calls (os1 ++ os2) st
  = let '(vs1, st1) := root_calls os1 st in
    let '(vs2, st2) := root_calls os2 st1 in
    (vs1 ++ vs2, st2).
Proof.
  revert st. induction os1 as [|o os1 IH]; intros st.
  - cbn [app root_calls]. by destruct (root_calls os2 st).
  - cbn [app root_calls]. destruct (getInstanceTenancyOcid o st) as [v st1].
    rewrite IH. destruct (root_calls os1 st1) as [vs1 st2].
    by destruct (root_calls os2 st2).
Qed.

Lemma metadata_requests_issue st :
  metadata_requests (issue CallMetadata st) = S (metadata_requests st).
Proof.
  unfold metadata_requests, issue. cbn [calls].
  rewrite List.filter_app, length_app. cbn. lia.
Qed.

(** Calls that all fail: each returns [null], each issues the request,
    and the cache stays as it was. *)
Lemma root_calls_failed os st :
  truthy (_instanceMetaTenancyOcid st) = false →
  Forall fails os →
  ∃ st',
    root_calls os st = (replicate (length os) JNull, st')
    ∧ _instanceMetaTenancyOcid st' = _instanceMetaTenancyOcid st
    ∧ metadata_requests st' = metadata_requests st + length os.
Proof.
  intros Hc Hos. revert st Hc.
  induction Hos as [|o os Ho Hos IH]; intros st Hc.
  - exists st. cbn. repeat split; lia.
  - destruct (IH (issue CallMetadata st) Hc) as (st' & Hrun & Hcache & Hreq).
    exists st'. cbn [root_calls]. rewrite root_failed, Hrun by done.
    repeat split; [done|].
    rewrite Hreq, metadata_requests_issue. cbn [length]. lia.
Qed.

(** C2. Memoisation of the root id. In a run of calls started with
    nothing cached, the calls that fail (error on the request, or a
    response without a non-empty [compartmentId] string) each return
    [null], leave the cache empty and issue the metadata request each time
    anew; the first call that succeeds issues it once more and caches the
    id; every call after that returns the cached id with no further
    request, so the requests number one more than the failed calls. *)
Theorem root_memoization (failed later : list meta_outcome) (good : meta_outcome)
    (s : string) (st : ServerState) :
  truthy (_instanceMetaTenancyOcid st) = false →
  Forall fails failed →
  yields_root good s →
  (∃ st1,
     root_calls failed st = (replicate (length failed) JNull, st1)
     ∧ _instanceMetaTenancyOcid st1 = _instanceMetaTenancyOcid st
     ∧ metadata_requests st1 = metadata_requests st + length failed)
  ∧ ∃ st2,
      root_calls (failed ++ good :: later) st
      = (replicate (length failed) JNull
         ++ JStr s :: replicate (length later) (JStr s), st2)
      ∧ _instanceMetaTenancyOcid st2 = JStr s
      ∧ s ≠ ""
      ∧ metadata_requests st2 = metadata_requests st + length failed + 1.
Proof.
  intros Hc Hfailed Hgood.
  destruct (root_calls_failed failed st Hc Hfailed) as (st1 & Hrun & Hcache & Hreq).
  split; [by exists st1|].
  exists (cache_root (JStr s) (issue CallMetadata st1)).
  rewrite root_calls_app, Hrun. cbn [root_calls].
  rewrite (root_found good s) by (done || by rewrite Hcache).
  assert (s ≠ "") as Hs by (by destruct Hgood as (? & _ & _ & ?)).
  rewrite root_calls_cached by (by destruct s).
  repeat split; [done|].
  change (metadata_requests (cache_root (JStr s) (issue CallMetadata st1)))
    with (metadata_requests (issue CallMetadata st1)).
  rewrite metadata_requests_issue. lia.
Qed.

Lemma useless_replies_fail : Forall fails useless_replies.
Proof.
  repeat constructor; intros s (meta & Hmeta & Hprop & Hs);
    simplify_eq; vm_compute in Hprop; by simplify_eq.
Qed.

Lemma metadata_reply_yields : yields_root metadata_reply "ocid1.tenancy.x".
Proof. exists (JObj [("displayName", JStr "host"); ("compartmentId", JStr "ocid1.tenancy.x")]). done. Qed.

Lemma root_memoization_witness :
  ∃ st2,
    root_calls (useless_replies ++ metadata_reply :: [MetaError; metadata_reply])
      server_start
    = (replicate 5 JNull ++ replicate 3 (JStr "ocid1.tenancy.x"), st2)
    ∧ metadata_requests st2 = 6.
Proof.
  destruct (root_memoization useless_replies [MetaError; metadata_reply]
              metadata_reply "ocid1.tenancy.x" server_start)
    as [_ (st2 & Hrun & _ & _ & Hreq)].
  - reflexivity.
  - exact useless_replies_fail.
  - exact metadata_reply_yields.
  - exists st2. split; [exact Hrun | exact Hreq].
Defined.

Lemma by_config_lookup_holds env profileName parent compartmentId st :
  INSTANCE_PRINCIPAL_MODE env = false →
  truthy profileName = true →
  by_config_lookup env profileName parent compartmentId st.
Proof.
  intros Hmode Hname. unfold by_config_lookup, get_compartments, get_policies.
  rewrite Hmode, Hname. cbn [negb orb].
  destruct (loadOciProfile profileName (config_file env)) as [profileConfig|].
  - destruct (client_error env); (split; [done|]); by intros ->.
  - split; [done|]. by intros ->.
Qed.

(** C3. Mode exclusivity. In instance-principal mode a request to
    [/api/compartments] or [/api/policies] whose [profile] is not the
    string [instance-principal] is answered with status 400 and leaves
    the state of the process as it was: no call to the identity service
    (nor to the metadata service) is made. In profile mode the name
    [instance-principal] is treated as every other name: not found (404,
    no call) when the configuration holds no fields for it, and served
    from the configuration when it does. *)
Theorem mode_exclusivity (ip pm : Env) (profile parent compartmentId : jsval)
    (st : ServerState) :
  INSTANCE_PRINCIPAL_MODE ip = true →
  INSTANCE_PRINCIPAL_MODE pm = false →
  strict_eq_str profile INSTANCE_PRINCIPAL_PROFILE_NAME = false →
  get_compartments ip profile parent st = (sentinel_required, st)
  ∧ get_policies ip profile compartmentId st = (sentinel_required, st)
  ∧ by_config_lookup pm (JStr INSTANCE_PRINCIPAL_PROFILE_NAME) parent compartmentId st
  ∧ ∀ other, truthy other = true →
      by_config_lookup pm other parent compartmentId st.
Proof.
  intros Hip Hpm Hprofile. repeat split.
  - unfold get_compartments. by rewrite Hip, Hprofile.
  - unfold get_policies. by rewrite Hip, Hprofile.
  - by apply by_config_lookup_holds.
  - intros other Hother. by apply by_config_lookup_holds.
Qed.

Lemma mode_exclusivity_witness :
  get_compartments instance_mode_env (JStr "dev") JUndefined server_start
  = (sentinel_required, server_start)
  ∧ get_policies instance_mode_env (JStr "dev") (JStr "ocid1.tenancy.x") server_start
    = (sentinel_required, server_start)
  ∧ get_compartments profile_mode_env (JStr "instance-principal") JUndefined server_start
    = (mkResponse 404 (error_body (JStr "Profile not found")), server_start).
Proof.
  destruct (mode_exclusivity instance_mode_env profile_mode_env (JStr "dev")
              JUndefined (JStr "ocid1.tenancy.x") server_start)
    as (Hc & Hp & Hs & _); [reflexivity..|].
  split; [exact Hc|]. split; [exact Hp|].
  exact (proj1 Hs).
Defined.

End BackendFacts.

(** ** NavigationController *)

Module FrontendFacts.

Import Frontend.

(** *** The stack is touched by the two navigation handlers only *)

Lemma stack_fetchPolicies profile compartmentId w :
  compartmentStack (sess (fetchPolicies profile compartmentId w))
  = compartmentStack (sess w).
Proof. unfold fetchPolicies. by destruct (negb _ || negb _). Qed.

Lemma stack_fetchChildren profile parentId setRootId w :
  compartmentStack (sess (fetchChildren profile parentId setRootId w))
  = compartmentStack (sess w).
Proof. unfold fetchChildren. by destruct (negb _). Qed.

Lemma stack_handleDrilldown c w :
  compartmentStack (sess (handleDrilldown (JObj c) w))
  = compartmentStack (sess w) ++ [entry_of c].
Proof.
  unfold handleDrilldown. cbn [prop].
  by rewrite stack_fetchPolicies, stack_fetchChildren.
Qed.

Lemma stack_handleBack w :
  compartmentStack (sess (handleBack w)) = removelast (compartmentStack (sess w)).
Proof.
  unfold handleBack. by rewrite stack_fetchPolicies, stack_fetchChildren.
Qed.

Lemma stack_step_nav op w :
  compartmentStack (sess (step w (nav_event op)))
  = apply_nav (compartmentStack (sess w)) op.
Proof.
  destruct op as [c|]; [apply stack_handleDrilldown | apply stack_handleBack].
Qed.

Lemma stack_after_fold ops w :
  stack_after ops w = fold_left apply_nav ops (compartmentStack (sess w)).
Proof.
  unfold stack_after, run. revert w.
  induction ops as [|op ops IH]; intros w; [done|].
  cbn [fmap list_fmap fold_left]. by rewrite IH, stack_step_nav.
Qed.

Lemma stack_after_snoc ops op w :
  stack_after (ops ++ [op]) w = apply_nav (stack_after ops w) op.
Proof. by rewrite !stack_after_fold, fold_left_app. Qed.

Lemma length_removelast {A} (l : list A) :
  length (removelast l) = length l - 1.
Proof.
  induction l as [|x [|y l] IH]; [done..|].
  change (removelast (x :: y :: l)) with (x :: removelast (y :: l)).
  cbn [length] in *. lia.
Qed.

Lemma removelast_take {A} (l : list A) :
  removelast l = take (length l - 1) l.
Proof.
  induction l as [|x [|y l] IH]; [done..|].
  change (removelast (x :: y :: l)) with (x :: removelast (y :: l)).
  rewrite IH.
  replace (length (x :: y :: l) - 1) with (S (length (y :: l) - 1))
    by (cbn [length]; lia).
  reflexivity.
Qed.

(** Under the guard of the Back button the length follows the count. *)
Lemma guarded_length ops stack :
  back_guarded (length stack) ops = true →
  length (fold_left apply_nav ops stack) + backs ops = length stack + drills ops.
Proof.
  revert stack. induction ops as [|[c|] ops IH]; intros stack Hg.
  - cbn. lia.
  - cbn [fold_left apply_nav drills backs].
    rewrite IH; rewrite length_app; cbn [length]; [lia|].
    by rewrite Nat.add_1_r.
  - cbn [fold_left apply_nav drills backs]. cbn [back_guarded] in Hg.
    destruct (length stack) as [|n] eqn:Hlen; [done|].
    assert (length (removelast stack) = n) as Hrl
      by (rewrite length_removelast; lia).
    specialize (IH (removelast stack)). rewrite Hrl in IH.
    specialize (IH Hg). lia.
Qed.

Lemma fold_drills cs stack :
  fold_left apply_nav (Drill <$> cs) stack = stack ++ (entry_of <$> cs).
Proof.
  revert stack. induction cs as [|c cs IH]; intros stack.
  - by rewrite app_nil_r.
  - cbn [fmap list_fmap fold_left apply_nav]. rewrite IH.
    by rewrite <- app_assoc.
Qed.

Lemma fold_backs m (stack : list entry) :
  fold_left apply_nav (replicate m GoBack) stack = take (length stack - m) stack.
Proof.
  revert stack. induction m as [|m IH]; intros stack.
  - cbn. by rewrite Nat.sub_0_r, firstn_all.
  - cbn [replicate fold_left apply_nav]. rewrite IH, length_removelast.
    rewrite removelast_take, take_take. f_equal. lia.
Qed.

Lemma counts_drills_backs cs m :
  drills ((Drill <$> cs) ++ replicate m GoBack) = length cs
  ∧ backs ((Drill <$> cs) ++ replicate m GoBack) = m
  ∧ pushed ((Drill <$> cs) ++ replicate m GoBack) = entry_of <$> cs.
Proof.
  induction cs as [|c cs (IHd & IHb & IHp)].
  - cbn [fmap list_fmap app length]. induction m as [|m (IHd & IHb & IHp)]; [done|].
    cbn [replicate drills backs pushed]. by rewrite IHd, IHb, IHp.
  - cbn [fmap list_fmap app drills backs pushed length].
    by rewrite IHd, IHb, IHp.
Qed.

(** C1, as the code has it. From an empty stack and with Back asked for
    only at a non-empty stack (the button is shown only then): the length
    of the stack is the number of drill-downs less the number of backs; a
    drill-down appends its entry and a back removes the last one; and
    when all the [N] drill-downs come before the [M] backs the stack is
    the first [N - M] pushed entries in push order. *)
Theorem stack_invariant (ops : list nav) (w : World) :
  compartmentStack (sess w) = [] →
  back_guarded 0 ops = true →
  length (stack_after ops w) = drills ops - backs ops
  ∧ (∀ c, stack_after (ops ++ [Drill c]) w = stack_after ops w ++ [entry_of c])
  ∧ stack_after (ops ++ [GoBack]) w = removelast (stack_after ops w)
  ∧ ∀ cs m,
      ops = (Drill <$> cs) ++ replicate m GoBack →
      stack_after ops w = take (drills ops - backs ops) (pushed ops).
Proof.
  intros Hempty Hguard. repeat split.
  - rewrite stack_after_fold, Hempty.
    pose proof (guarded_length ops [] Hguard) as Hlen. cbn [length] in Hlen. lia.
  - intros c. apply stack_after_snoc.
  - apply stack_after_snoc.
  - intros cs m ->. destruct (counts_drills_backs cs m) as (-> & -> & ->).
    rewrite stack_after_fold, Hempty, fold_left_app, fold_drills, fold_backs.
    cbn [app]. by rewrite length_fmap.
Qed.

Lemma stack_invariant_witness :
  stack_after [Drill sales; Drill billing; GoBack] initial = [entry_of sales]
  ∧ length (stack_after [Drill sales; Drill billing; GoBack] initial) = 1.
Proof.
  destruct (stack_invariant [Drill sales; Drill billing; GoBack] initial)
    as (Hlen & _ & _ & Hfirst); [reflexivity..|].
  split; [|exact Hlen].
  exact (Hfirst [sales; billing] 1 eq_refl).
Defined.

(** C1 as worded fails: after a drill-down, a back and a second drill-down
    the stack holds the second entry, not the first one pushed. *)
Lemma stack_invariant_counterexample :
  ¬ stack_invariant_as_stated [Drill sales; GoBack; Drill billing] initial.
Proof.
  intros Hinv. destruct Hinv as [_ Hfirst]; [reflexivity | cbn; lia |].
  vm_compute in Hfirst. discriminate Hfirst.
Qed.

(** *** What the fetch functions add to the log *)

Lemma fetchPolicies_guarded profile compartmentId w :
  nonempty profile = false ∨ truthy compartmentId = false →
  fetchPolicies profile compartmentId w = setPolicies w [].
Proof.
  intros Hguard. unfold fetchPolicies.
  by destruct Hguard as [-> | ->]; [|rewrite orb_true_r].
Qed.

Lemma fetchPolicies_issued profile compartmentId w :
  nonempty profile = true → truthy compartmentId = true →
  fetches (fetchPolicies profile compartmentId w)
  = fetches w ++ [mkFetch (GetPolicies profile compartmentId) KPolicies].
Proof. intros Hp Hc. unfold fetchPolicies. by rewrite Hp, Hc. Qed.

Lemma fetchChildren_issued profile parentId setRootId w :
  nonempty profile = true → truthy parentId = true →
  fetches (fetchChildren profile parentId setRootId w)
  = fetches w ++ [mkFetch (GetCompartments profile (Some parentId))
                          (KChildren profile parentId setRootId)].
Proof.
  intros Hp Hc. unfold fetchChildren. rewrite Hp.
  destruct parentId; try done; cbn [negb]; by rewrite Hc.
Qed.

Lemma issued_by_app e w new :
  fetches (step w e) = fetches w ++ new →
  issued_by e w = url <$> new.
Proof.
  intros Heq. unfold issued_by, sent. rewrite Heq, fmap_app.
  rewrite <- (length_fmap url (fetches w)). apply drop_app_length.
Qed.

Lemma step_settle i o f w :
  fetches w !! i = Some f →
  step w (Settle i o) = fst (settle_chain (k f) o w).
Proof. intros Hf. cbn [step]. by rewrite Hf. Qed.

(** *** Every fetch in the log is one the fetch functions issue *)

Lemma well_formed_fetchPolicies profile compartmentId w :
  Forall well_formed (fetches w) →
  Forall well_formed (fetches (fetchPolicies profile compartmentId w)).
Proof.
  intros Hw. unfold fetchPolicies.
  destruct (nonempty profile) eqn:Hp; [|done].
  destruct (truthy compartmentId) eqn:Hc; [|done].
  cbn. apply Forall_app. split; [done|].
  repeat constructor. by exists profile, compartmentId.
Qed.

Lemma well_formed_fetchChildren profile parentId setRootId w :
  Forall well_formed (fetches w) →
  Forall well_formed (fetches (fetchChildren profile parentId setRootId w)).
Proof.
  intros Hw. unfold fetchChildren.
  destruct (nonempty profile) eqn:Hp; [|done].
  cbn. apply Forall_app. split; [done|].
  repeat constructor; unfold well_formed; cbn [k url];
    by destruct parentId.
Qed.

Lemma well_formed_settle c o w :
  Forall well_formed (fetches w) →
  Forall well_formed (fetches (fst (settle_chain c o w))).
Proof.
  intros Hw. unfold settle_chain.
  destruct o as [|[data|]]; destruct c as [profile parentId setRootId|];
    cbn [fetch_promise then_ to_json catch_ children_catch policies_catch fst];
    try done.
  - unfold children_then.
    destruct data; try (cbn [prop]; done).
    destruct (root_hint setRootId items) as [hint|]; [|done].
    cbn [catch_ fst]. apply well_formed_fetchPolicies.
    by destruct (truthy hint).
  - unfold policies_then. destruct data; try (cbn [prop]; done).
Qed.

Lemma well_formed_step w e :
  Forall well_formed (fetches w) → Forall well_formed (fetches (step w e)).
Proof.
  intros Hw. destruct e as [profile|c| |i o].
  - cbn [step]. destruct (negb _); [|done].
    unfold selectedProfile_effect. destruct (nonempty _); [|done].
    by apply well_formed_fetchChildren.
  - cbn [step]. unfold handleDrilldown.
    destruct (prop c "id") as [c_id|]; [|done].
    destruct (prop c "name") as [c_name|]; [|done].
    by apply well_formed_fetchPolicies, well_formed_fetchChildren.
  - cbn [step]. unfold handleBack.
    by apply well_formed_fetchPolicies, well_formed_fetchChildren.
  - cbn [step]. destruct (fetches w !! i) as [f|]; [|done].
    by apply well_formed_settle.
Qed.

Lemma well_formed_run events w :
  Forall well_formed (fetches w) → Forall well_formed (fetches (run events w)).
Proof.
  revert w. induction events as [|e events IH]; intros w Hw; [done|].
  apply IH. by apply well_formed_step.
Qed.

Lemma well_formed_reachable events :
  Forall well_formed (fetches (run events initial)).
Proof. apply well_formed_run. constructor. Qed.

(** *** Children-fetch with no items *)

Lemma settle_children_empty profile parentId setRootId w :
  fst (settle_chain (KChildren profile parentId setRootId)
         (Responded (Some (JArr []))) w)
  = setLoadingCompartments
      (fetchPolicies profile parentId (setCompartments w [])) false.
Proof. unfold settle_chain. by destruct setRootId. Qed.

(** C4, as the code has it. When a children-fetch issued by the controller
    comes back with an array of no items, the list of compartments is
    empty and [fetchPolicies] runs for the parent id of that fetch: a
    policies request for the same id goes out when the id is non-empty;
    when it is empty (the root not yet resolved, after a profile was
    chosen) no request goes out and the policies list is cleared. *)
Theorem leaf_policies (events : list event) (i : nat) (f : fetch)
    (profile : string) (parentId : jsval) (setRootId : bool) :
  let w := run events initial in
  let e := Settle i (Responded (Some (JArr []))) in
  fetches w !! i = Some f →
  k f = KChildren profile parentId setRootId →
  url f = GetCompartments profile (if truthy parentId then Some parentId else None)
  ∧ compartments (sess (step w e)) = []
  ∧ (truthy parentId = true → issued_by e w = [GetPolicies profile parentId])
  ∧ (truthy parentId = false →
     issued_by e w = [] ∧ policies (sess (step w e)) = []).
Proof.
  intros w e Hf Hk.
  pose proof (well_formed_reachable events) as Hwf.
  rewrite Forall_lookup in Hwf. specialize (Hwf i f Hf).
  unfold well_formed in Hwf. rewrite Hk in Hwf.
  destruct Hwf as (Hprofile & _ & Hurl).
  assert (step w e = setLoadingCompartments
            (fetchPolicies profile parentId (setCompartments w [])) false) as Hstep.
  { unfold e. rewrite (step_settle i _ f) by done. rewrite Hk.
    apply settle_children_empty. }
  split; [done|]. split; [|split].
  - rewrite Hstep. unfold fetchPolicies. by destruct (negb _ || negb _).
  - intros Hid. apply (issued_by_app e w [mkFetch (GetPolicies profile parentId) KPolicies]).
    rewrite Hstep. cbn [fetches setLoadingCompartments].
    by rewrite fetchPolicies_issued.
  - intros Hid. rewrite Hstep, fetchPolicies_guarded by by right.
    split; [|done]. apply (issued_by_app e w []).
    rewrite Hstep, fetchPolicies_guarded by by right.
    cbn. by rewrite app_nil_r.
Qed.

Lemma leaf_policies_witness :
  issued_by (Settle 2 (Responded (Some (JArr [])))) (run dev_drilled initial)
  = [GetPolicies "dev" (JStr "ocid1.compartment.y")].
Proof.
  destruct (leaf_policies dev_drilled 2
              (mkFetch (GetCompartments "dev" (Some (JStr "ocid1.compartment.y")))
                       (KChildren "dev" (JStr "ocid1.compartment.y") false))
              "dev" (JStr "ocid1.compartment.y") false)
    as (_ & _ & Hissued & _); [reflexivity..|].
  exact (Hissued eq_refl).
Defined.

(** C4 as worded fails where it names the unresolved root: after a profile
    was chosen and the root listing came back empty, no policies request
    is issued. *)
Lemma leaf_policies_counterexample : ¬ leaf_policies_as_stated 0 dev_selected.
Proof.
  intros Hstated.
  destruct (Hstated (mkFetch (GetCompartments "dev" None) (KChildren "dev" (JStr "") true))
              "dev" (JStr "") true eq_refl eq_refl) as [compartmentId Hin].
  vm_compute in Hin. by apply elem_of_nil in Hin.
Qed.

(** *** Failures *)


(** The last promise of a chain is never rejected, and no callback of a
    fetch touches the stack. *)
Lemma settle_handled c o w :
  snd (settle_chain c o w) = Fulfilled tt
  ∧ compartmentStack (sess (fst (settle_chain c o w))) = compartmentStack (sess w).
Proof.
  unfold settle_chain.
  destruct o as [|[data|]]; destruct c as [profile parentId setRootId|];
    cbn [fetch_promise then_ to_json catch_ children_catch policies_catch fst snd];
    try done.
  - unfold children_then. destruct data; try (cbn [prop]; done).
    destruct (root_hint setRootId items) as [hint|]; [|done].
    cbn [catch_ fst snd]. split; [done|].
    cbn [sess setLoadingCompartments compartmentStack].
    rewrite stack_fetchPolicies. by destruct (truthy hint).
  - unfold policies_then. destruct data; try (cbn [prop]; done).
Qed.

Ltac unfold_chain :=
  cbv [settle_chain then_ catch_ to_json fetch_promise children_then
       policies_then children_catch policies_catch prop fst snd].







(** *** Drill-down *)

Lemma fetches_handleDrilldown c w :
  let profile := selectedProfile (sess w) in
  let c_id := lookup_field "id" c in
  nonempty profile = true → truthy c_id = true →
  fetches (handleDrilldown (JObj c) w)
  = fetches w
    ++ [mkFetch (GetCompartments profile (Some c_id)) (KChildren profile c_id false);
        mkFetch (GetPolicies profile c_id) KPolicies].
Proof.
  intros profile c_id Hp Hid. unfold handleDrilldown. cbn [prop].
  rewrite fetchPolicies_issued, fetchChildren_issued by done.
  cbn [fetches setCompartmentStack]. by rewrite <- app_assoc.
Qed.

Lemma settle_children_listing profile parentId items w :
  fst (settle_chain (KChildren profile parentId false)
         (Responded (Some (JArr items))) w)
  = setLoadingCompartments
      (fetchPolicies profile parentId (setCompartments w items)) false.
Proof. reflexivity. Qed.

Lemma policies_after_array items w :
  policies_after (Responded (Some (JArr items))) w = items.
Proof. reflexivity. Qed.

(** The policies list after a response depends on that response alone. *)
Lemma policies_after_last o w1 w2 : policies_after o w1 = policies_after o w2.
Proof.
  unfold policies_after.
  destruct o as [|[data|]]; try destruct data; unfold_chain; done.
Qed.

(** C8. A drill-down into a node with id [N], with a profile selected,
    issues the children-fetch for [N] and, from the handler itself, a
    policies-fetch for [N]; when the children-fetch comes back with an
    array, its callback issues the same policies request once more; and of
    two policies responses the one handled second decides the list,
    whatever the first one was. *)
Theorem drilldown_fetches_policies_twice (w later : World)
    (c : list (string * jsval)) (items found : list jsval) (first : outcome) :
  let profile := selectedProfile (sess w) in
  let N := lookup_field "id" c in
  nonempty profile = true →
  truthy N = true →
  fetches (handleDrilldown (JObj c) w)
  = fetches w
    ++ [mkFetch (GetCompartments profile (Some N)) (KChildren profile N false);
        mkFetch (GetPolicies profile N) KPolicies]
  ∧ fetches (fst (settle_chain (KChildren profile N false)
                   (Responded (Some (JArr items))) later))
    = fetches later ++ [mkFetch (GetPolicies profile N) KPolicies]
  ∧ policies_after (Responded (Some (JArr found)))
      (fst (settle_chain KPolicies first later)) = found
  ∧ ∀ second,
      policies_after second (fst (settle_chain KPolicies first later))
      = policies_after second later.
Proof.
  intros profile N Hp HN. split; [|split; [|split]].
  - by apply fetches_handleDrilldown.
  - rewrite settle_children_listing.
    cbn [fetches setLoadingCompartments]. by rewrite fetchPolicies_issued.
  - apply policies_after_array.
  - intros second. apply policies_after_last.
Qed.

Lemma drilldown_fetches_policies_twice_witness :
  fetches (handleDrilldown (JObj sales) root_listed)
  = fetches root_listed
    ++ [mkFetch (GetCompartments "dev" (Some (JStr "ocid1.compartment.y")))
                (KChildren "dev" (JStr "ocid1.compartment.y") false);
        mkFetch (GetPolicies "dev" (JStr "ocid1.compartment.y")) KPolicies]
  ∧ fetches (fst (settle_chain (KChildren "dev" (JStr "ocid1.compartment.y") false)
                    (Responded (Some (JArr []))) (run dev_drilled initial)))
    = fetches (run dev_drilled initial)
      ++ [mkFetch (GetPolicies "dev" (JStr "ocid1.compartment.y")) KPolicies].
Proof.
  assert (nonempty (selectedProfile (sess root_listed)) = true) as Hprofile
    by (vm_compute; reflexivity).
  assert (truthy (lookup_field "id" sales) = true) as Hid
    by (vm_compute; reflexivity).
  pose proof (drilldown_fetches_policies_twice root_listed (run dev_drilled initial)
                sales [] [] NetworkFailure Hprofile Hid) as (Hdrill & Hsettle & _).
  split; [exact Hdrill | exact Hsettle].
Defined.

(** *** The guard of [fetchPolicies] *)

(** C10. [fetchPolicies] called with an empty or absent compartment id, or
    with no profile selected, empties the policies list and issues no
    request. So when a profile is chosen and the root listing comes back
    with no root-id hint (an empty listing, or a first item without a
    [compartmentId]), the policies list is empty and the only request sent
    is the one for the listing. *)
Theorem policies_guard (w : World) (profile : string) (compartmentId : jsval)
    (chosen : string) (items : list jsval) (hint : jsval) :
  nonempty profile = false ∨ truthy compartmentId = false →
  nonempty chosen = true →
  chosen ≠ selectedProfile (sess w) →
  root_hint true items = Some hint →
  truthy hint = false →
  (fetchPolicies profile compartmentId w = setPolicies w []
   ∧ policies (sess (fetchPolicies profile compartmentId w)) = []
   ∧ fetches (fetchPolicies profile compartmentId w) = fetches w)
  ∧ let w' := run [SelectProfile chosen;
                   Settle (length (fetches w)) (Responded (Some (JArr items)))] w in
    policies (sess w') = []
    ∧ sent w' = sent w ++ [GetCompartments chosen None].
Proof.
  intros Hguard Hchosen Hnew Hhint Hfalsy. split.
  - by rewrite fetchPolicies_guarded.
  - cbn [run fold_left]. cbn [step].
    rewrite bool_decide_eq_false_2 by done. cbn [negb].
    unfold selectedProfile_effect, handleProfileChange.
    cbn [sess selectedProfile setSelectedProfile setCompartments setPolicies
         setCompartmentStack setProfileRootId].
    rewrite Hchosen. unfold fetchChildren. rewrite Hchosen. cbn [negb truthy].
    cbn [fetches setSelectedProfile setCompartments setPolicies
         setCompartmentStack setProfileRootId setLoadingCompartments setError
         do_fetch sess].
    rewrite lookup_app_r, Nat.sub_diag by done. cbn [lookup list_lookup k].
    unfold_chain. rewrite Hhint, Hfalsy.
    rewrite fetchPolicies_guarded by by right.
    split; [done|]. unfold sent. cbn. by rewrite fmap_app.
Qed.

Lemma policies_guard_witness :
  fetchPolicies "" (JStr "ocid1.compartment.y") initial = setPolicies initial []
  ∧ sent (run [SelectProfile "dev";
               Settle (length (fetches initial)) (Responded (Some (JArr [])))]
            initial)
    = sent initial ++ [GetCompartments "dev" None].
Proof.
  assert ("dev" ≠ selectedProfile (sess initial)) as Hnew by (intros Heq; inversion Heq).
  pose proof (policies_guard initial "" (JStr "ocid1.compartment.y") "dev" []
                (JBool false) (or_introl eq_refl) eq_refl Hnew eq_refl eq_refl)
    as ((Hsame & _) & _ & Hsent).
  split; [exact Hsame | exact Hsent].
Defined.

(** The end-to-end scenario: [dev] is chosen, the root listing arrives,
    [sales] is entered and left again. The stack is empty at the end and
    the last two requests are for the root that the listing resolved. *)
Example end_to_end :
  let w := run (dev_drilled ++ [Back]) initial in
  compartmentStack (sess w) = []
  ∧ profileRootId (sess w) = JStr "ocid1.tenancy.x"
  ∧ sent w
    = [GetCompartments "dev" None;
       GetPolicies "dev" (JStr "ocid1.tenancy.x");
       GetCompartments "dev" (Some (JStr "ocid1.compartment.y"));
       GetPolicies "dev" (JStr "ocid1.compartment.y");
       GetCompartments "dev" (Some (JStr "ocid1.tenancy.x"));
       GetPolicies "dev" (JStr "ocid1.tenancy.x")].
Proof. vm_compute. done. Qed.

End FrontendFacts.

(** ** The server routes taken together *)

Module BackendMore.

Import ConfigStore Backend BackendFacts.

(** What one call of the resolver adds to the log: nothing, or the
    metadata request. *)
Lemma root_call_log o st :
  ∃ new,
    calls (getInstanceTenancyOcid o st).2 = calls st ++ new
    ∧ (new = [] ∨ new = [CallMetadata])
    ∧ (truthy (_instanceMetaTenancyOcid st) = true → new = []).
Proof.
  unfold getInstanceTenancyOcid.
  destruct (truthy (_instanceMetaTenancyOcid st)) eqn:Hc.
  - exists []. rewrite app_nil_r. split; [done|]. split; [by left | done].
  - exists [CallMetadata]. split; [|split; [by right | done]].
    destruct o as [|[meta|]]; try done.
    destruct (prop meta "compartmentId") as [[]|]; try done.
    by destruct (nonempty s).
Qed.

Lemma call_upstream_log env c fallback st :
  calls (call_upstream env c fallback st).2 = calls st ++ [c].
Proof. unfold call_upstream. by destruct (upstream env). Qed.

Lemma call_upstream_status env c fallback st :
  status (call_upstream env c fallback st).1 = 200
  ∨ status (call_upstream env c fallback st).1 = 500.
Proof. unfold call_upstream. destruct (upstream env); [by left | by right]. Qed.

(** X1. A request that is answered with a client error, 400 or 404, on
    either route and in either mode, has left the process as it was: no
    metadata request, no call to the identity service, nothing cached. *)
Theorem client_error_is_silent (ep : endpoint) (env : Env) (profile arg : jsval)
    (st : ServerState) :
  status (handle ep env profile arg st).1 = 400
  ∨ status (handle ep env profile arg st).1 = 404 →
  (handle ep env profile arg st).2 = st.
Proof.
  destruct ep; cbn [handle]; unfold get_compartments, get_policies;
    repeat match goal with
    | |- context [if ?b then _ else _] => destruct b
    | |- context [match loadOciProfile ?n ?f with _ => _ end] =>
        destruct (loadOciProfile n f)
    | |- context [match client_error ?e with _ => _ end] =>
        destruct (client_error e)
    | |- context [getInstanceTenancyOcid ?o ?s] =>
        destruct (getInstanceTenancyOcid o s)
    end; try done;
    try (cbn; intros [|]; discriminate);
    match goal with
    | |- context [call_upstream ?e ?c ?f ?s] =>
        destruct (call_upstream_status e c f s) as [-> | ->];
          intros [|]; discriminate
    end.
Qed.

Lemma client_error_is_silent_witness :
  (handle ApiPolicies profile_mode_env (JStr "dev") JUndefined server_start).2
  = server_start.
Proof.
  apply (client_error_is_silent ApiPolicies profile_mode_env (JStr "dev")
           JUndefined server_start).
  left. reflexivity.
Defined.

Lemma call_upstream_ok env c fallback st :
  status (call_upstream env c fallback st).1 = 200 →
  ∃ items, upstream env = inl items
           ∧ body (call_upstream env c fallback st).1 = js_or items (JArr []).
Proof.
  unfold call_upstream. destruct (upstream env) as [items|message]; [|done].
  intros _. by exists items.
Qed.

Ltac no_call :=
  exists []; rewrite app_nil_r; cbn; repeat split; try lia; intros; discriminate.

Ltac one_call :=
  eexists [_]; rewrite call_upstream_log; split; [reflexivity|];
  cbn; repeat split; try lia;
  intros Hok; eexists; repeat split; by apply call_upstream_ok.

(** X2. No retries and no fan-out: a request to either route adds to the
    log at most one metadata request and at most one call to the identity
    service, and takes nothing from it; an answer with status 200 means
    that the identity service was called, as the last thing, and that its
    [items] (or the empty array in their place) are the body. *)
Theorem one_call_per_request (ep : endpoint) (env : Env) (profile arg : jsval)
    (st : ServerState) :
  ∃ new,
    calls (handle ep env profile arg st).2 = calls st ++ new
    ∧ length (List.filter is_metadata_call new) ≤ 1
    ∧ length (List.filter is_identity_call new) ≤ 1
    ∧ (status (handle ep env profile arg st).1 = 200 →
       ∃ c, last new = Some c ∧ is_identity_call c = true
            ∧ ∃ items, upstream env = inl items
                       ∧ body (handle ep env profile arg st).1
                         = js_or items (JArr [])).
Proof.
  destruct ep; cbn [handle].
  - unfold get_compartments. destruct (INSTANCE_PRINCIPAL_MODE env).
    + destruct (negb (strict_eq_str _ _)); [no_call|].
      destruct (client_error env); [no_call|].
      destruct (root_call_log (metadata env) st) as (new0 & Hlog & Hshape & _).
      destruct (getInstanceTenancyOcid (metadata env) st) as [tenancyId st1].
      cbn [snd] in Hlog. destruct (negb (truthy tenancyId)).
      * exists new0. cbn [fst snd status]. split; [done|].
        destruct Hshape as [-> | ->]; cbn; repeat split; try lia; intros; discriminate.
      * eexists (new0 ++ [_]). rewrite call_upstream_log, Hlog, app_assoc.
        split; [done|].
        destruct Hshape as [-> | ->]; cbn; repeat split; try lia;
          intros Hok; eexists; repeat split; by apply call_upstream_ok.
    + destruct (negb (truthy profile)); [no_call|].
      destruct (loadOciProfile profile (config_file env)); [|no_call].
      destruct (client_error env); [no_call | one_call].
  - unfold get_policies. destruct (INSTANCE_PRINCIPAL_MODE env).
    + destruct (negb (strict_eq_str _ _)); [no_call|].
      destruct (negb (truthy arg)); [no_call|].
      destruct (client_error env); [no_call | one_call].
    + destruct (negb (truthy profile) || negb (truthy arg)); [no_call|].
      destruct (loadOciProfile profile (config_file env)); [|no_call].
      destruct (client_error env); [no_call | one_call].
Qed.

(** X3. The metadata service is asked only by [/api/compartments] in
    instance-principal mode under the sentinel name, and only there can
    the cached root id change: every other request leaves both the count
    of metadata requests and the cache as they were. *)
Theorem metadata_only_for_instance_listing (ep : endpoint) (env : Env)
    (profile arg : jsval) (st : ServerState) :
  ¬ (ep = ApiCompartments ∧ INSTANCE_PRINCIPAL_MODE env = true
     ∧ profile = JStr INSTANCE_PRINCIPAL_PROFILE_NAME) →
  metadata_requests (handle ep env profile arg st).2 = metadata_requests st
  ∧ _instanceMetaTenancyOcid (handle ep env profile arg st).2
    = _instanceMetaTenancyOcid st.
Proof.
  intros Hother.
  assert (∀ c fallback, is_metadata_call c = false →
            metadata_requests (call_upstream env c fallback st).2 = metadata_requests st
            ∧ _instanceMetaTenancyOcid (call_upstream env c fallback st).2
              = _instanceMetaTenancyOcid st) as Hup.
  { intros c fallback Hc. unfold metadata_requests.
    rewrite call_upstream_log, List.filter_app. cbn. rewrite Hc.
    rewrite app_nil_r. split; [done|].
    unfold call_upstream. by destruct (upstream env). }
  destruct ep; cbn [handle].
  - unfold get_compartments. destruct (INSTANCE_PRINCIPAL_MODE env).
    + destruct (strict_eq_str profile _) eqn:Hs; [|done].
      exfalso. apply Hother. repeat split.
      destruct profile; try done. cbn in Hs. by apply bool_decide_eq_true in Hs as ->.
    + destruct (negb (truthy profile)); [done|].
      destruct (loadOciProfile profile (config_file env)); [|done].
      destruct (client_error env); [done | by apply Hup].
  - unfold get_policies. destruct (INSTANCE_PRINCIPAL_MODE env).
    + destruct (negb (strict_eq_str _ _)); [done|].
      destruct (negb (truthy arg)); [done|].
      destruct (client_error env); [done | by apply Hup].
    + destruct (negb (truthy profile) || negb (truthy arg)); [done|].
      destruct (loadOciProfile profile (config_file env)); [|done].
      destruct (client_error env); [done | by apply Hup].
Qed.

Lemma metadata_only_for_instance_listing_witness :
  metadata_requests
    (handle ApiPolicies instance_mode_env (JStr "instance-principal")
       (JStr "ocid1.tenancy.x") server_start).2 = 0.
Proof.
  refine (proj1 (metadata_only_for_instance_listing ApiPolicies instance_mode_env
                   (JStr "instance-principal") (JStr "ocid1.tenancy.x")
                   server_start _)).
  intros (Hep & _). discriminate Hep.
Defined.

(** X4. In instance-principal mode, under the sentinel profile, the root
    id is looked up before the parent is considered. With nothing cached
    and a metadata request that fails, the listing is answered with status
    500 and the identity service is not called, also for a request that
    names its parent: when the provider and the client were built, after
    one metadata request and with the message of the handler; when
    building them throws, with the message of what was thrown (or the
    fallback of the route) and no metadata request. *)
Theorem listing_needs_metadata (env : Env) (parent : jsval) (st : ServerState) :
  INSTANCE_PRINCIPAL_MODE env = true →
  truthy (_instanceMetaTenancyOcid st) = false →
  fails (metadata env) →
  let answer := get_compartments env (JStr INSTANCE_PRINCIPAL_PROFILE_NAME) parent st in
  status answer.1 = 500
  ∧ List.filter is_identity_call (calls answer.2)
    = List.filter is_identity_call (calls st)
  ∧ match client_error env with
    | None =>
        answer
        = (mkResponse 500
             (error_body (JStr "Unable to get tenancy OCID from instance metadata")),
           issue CallMetadata st)
    | Some message =>
        answer
        = (mkResponse 500
             (error_body (js_or message (JStr "Failed to list compartments"))), st)
    end.
Proof.
  intros Hmode Hcache Hfail. cbn zeta. unfold get_compartments.
  rewrite Hmode. cbn [strict_eq_str].
  rewrite bool_decide_eq_true_2 by done. cbn [negb].
  destruct (client_error env) as [message|]; [done|].
  rewrite root_failed by done. cbn [truthy negb fst snd status calls issue].
  repeat split. rewrite List.filter_app. cbn. by rewrite app_nil_r.
Qed.

Lemma listing_needs_metadata_witness :
  get_compartments instance_mode_offline (JStr INSTANCE_PRINCIPAL_PROFILE_NAME)
    (JStr "ocid1.compartment.y") server_start
  = (mkResponse 500
       (error_body (JStr "Unable to get tenancy OCID from instance metadata")),
     issue CallMetadata server_start)
  ∧ (get_compartments instance_mode_unbuilt (JStr INSTANCE_PRINCIPAL_PROFILE_NAME)
       (JStr "ocid1.compartment.y") server_start).2 = server_start.
Proof.
  assert (fails MetaError) as Hfail
    by (intros s (meta & Hmeta & _); discriminate Hmeta).
  pose proof (listing_needs_metadata instance_mode_offline (JStr "ocid1.compartment.y")
                server_start eq_refl eq_refl Hfail) as (_ & _ & Hbuilt).
  pose proof (listing_needs_metadata instance_mode_unbuilt (JStr "ocid1.compartment.y")
                server_start eq_refl eq_refl Hfail) as (_ & _ & Hunbuilt).
  split; [exact Hbuilt|]. cbn [client_error instance_mode_unbuilt] in Hunbuilt.
  by rewrite Hunbuilt.
Defined.

(** Once a root id is cached no request changes it or asks the metadata
    service again. *)
Lemma cache_stable ep env profile arg st :
  truthy (_instanceMetaTenancyOcid st) = true →
  _instanceMetaTenancyOcid (handle ep env profile arg st).2
  = _instanceMetaTenancyOcid st
  ∧ metadata_requests (handle ep env profile arg st).2 = metadata_requests st.
Proof.
  intros Hc.
  assert (∀ c fallback st', is_metadata_call c = false →
            _instanceMetaTenancyOcid (call_upstream env c fallback st').2
            = _instanceMetaTenancyOcid st'
            ∧ metadata_requests (call_upstream env c fallback st').2
              = metadata_requests st') as Hup.
  { intros c fallback st' Hcall. unfold metadata_requests.
    rewrite call_upstream_log, List.filter_app. cbn. rewrite Hcall, app_nil_r.
    split; [|done]. unfold call_upstream. by destruct (upstream env). }
  destruct ep; cbn [handle].
  - unfold get_compartments. destruct (INSTANCE_PRINCIPAL_MODE env).
    + destruct (negb (strict_eq_str _ _)); [done|].
      destruct (client_error env); [done|].
      rewrite root_cached, Hc by done. cbn [negb]. by apply Hup.
    + destruct (negb (truthy profile)); [done|].
      destruct (loadOciProfile profile (config_file env)); [|done].
      destruct (client_error env); [done | by apply Hup].
  - unfold get_policies. destruct (INSTANCE_PRINCIPAL_MODE env).
    + destruct (negb (strict_eq_str _ _)); [done|].
      destruct (negb (truthy arg)); [done|].
      destruct (client_error env); [done | by apply Hup].
    + destruct (negb (truthy profile) || negb (truthy arg)); [done|].
      destruct (loadOciProfile profile (config_file env)); [|done].
      destruct (client_error env); [done | by apply Hup].
Qed.

Lemma cache_stable_all requests st :
  truthy (_instanceMetaTenancyOcid st) = true →
  _instanceMetaTenancyOcid (serve_all requests st) = _instanceMetaTenancyOcid st
  ∧ metadata_requests (serve_all requests st) = metadata_requests st.
Proof.
  revert st. induction requests as [|r requests IH]; intros st Hc; [done|].
  cbn [serve_all fold_left].
  destruct (cache_stable (req_endpoint r) (req_env r) (req_profile r) (req_arg r) st Hc)
    as [Hcache Hcount].
  destruct (IH (handle (req_endpoint r) (req_env r) (req_profile r) (req_arg r) st).2)
    as [Hcache' Hcount']; [by rewrite Hcache|].
  unfold serve_all in Hcache', Hcount'. by rewrite Hcache', Hcount', Hcache, Hcount.
Qed.

(** X5. The root id found by one listing serves every listing after it.
    When a listing in instance-principal mode under the sentinel profile,
    its provider built and nothing cached before, gets the root id [s]
    from the metadata service, then [s] stays cached through every request
    served afterwards, to either route and whatever the process finds
    around it, and none of them issues a metadata request; and a listing
    under the sentinel served after them issues no metadata request
    either: it calls the identity service for the parent it names or else
    for the compartment [s] when its provider is built, and makes no call
    when building the provider throws. *)
Theorem root_serves_later_listings (env1 env2 : Env) (parent1 parent2 : jsval)
    (between : list api_request) (s : string) (st : ServerState) :
  INSTANCE_PRINCIPAL_MODE env1 = true → client_error env1 = None →
  truthy (_instanceMetaTenancyOcid st) = false →
  yields_root (metadata env1) s →
  INSTANCE_PRINCIPAL_MODE env2 = true →
  let sentinel := JStr INSTANCE_PRINCIPAL_PROFILE_NAME in
  let st1 := (get_compartments env1 sentinel parent1 st).2 in
  let st2 := serve_all between st1 in
  let st3 := (get_compartments env2 sentinel parent2 st2).2 in
  calls st1 = calls st
    ++ [CallMetadata;
        CallListCompartments InstancePrincipalsProvider (js_or parent1 (JStr s))]
  ∧ _instanceMetaTenancyOcid st2 = JStr s
  ∧ metadata_requests st2 = metadata_requests st1
  ∧ calls st3 = calls st2
    ++ match client_error env2 with
       | None => [CallListCompartments InstancePrincipalsProvider
                    (js_or parent2 (JStr s))]
       | Some _ => []
       end
  ∧ _instanceMetaTenancyOcid st3 = JStr s.
Proof.
  intros Hm1 Hc1 Hcache Hroot Hm2 sentinel st1 st2 st3.
  assert (s ≠ "") as Hs by (by destruct Hroot as (? & _ & _ & ?)).
  assert (truthy (JStr s) = true) as Hts by (by destruct s).
  assert (st1 = (call_upstream env1
                   (CallListCompartments InstancePrincipalsProvider (js_or parent1 (JStr s)))
                   "Failed to list compartments"
                   (cache_root (JStr s) (issue CallMetadata st))).2) as Hst1.
  { unfold st1, get_compartments. rewrite Hm1, Hc1. cbn [strict_eq_str sentinel].
    rewrite bool_decide_eq_true_2 by done. cbn [negb].
    rewrite (root_found _ s) by done. by rewrite Hts. }
  assert (_instanceMetaTenancyOcid st1 = JStr s) as Hcached1.
  { rewrite Hst1. unfold call_upstream. by destruct (upstream env1). }
  destruct (cache_stable_all between st1) as [Hcached2 Hcount2];
    [by rewrite Hcached1|].
  fold st2 in Hcached2, Hcount2. rewrite Hcached1 in Hcached2.
  assert (st3 = match client_error env2 with
                | None =>
                    (call_upstream env2
                       (CallListCompartments InstancePrincipalsProvider
                          (js_or parent2 (JStr s)))
                       "Failed to list compartments" st2).2
                | Some _ => st2
                end) as Hst3.
  { unfold st3, get_compartments. rewrite Hm2. cbn [strict_eq_str sentinel].
    rewrite bool_decide_eq_true_2 by done. cbn [negb].
    destruct (client_error env2); [done|].
    rewrite root_cached by (by rewrite Hcached2). by rewrite Hcached2, Hts. }
  split; [|split; [done|split; [done|split]]].
  - rewrite Hst1, call_upstream_log. cbn. by rewrite <- app_assoc.
  - rewrite Hst3. destruct (client_error env2); [by rewrite app_nil_r|].
    by rewrite call_upstream_log.
  - rewrite Hst3. destruct (client_error env2); [done|].
    unfold call_upstream. by destruct (upstream env2).
Qed.

Lemma root_serves_later_listings_witness :
  let between :=
    [mkRequest ApiPolicies instance_mode_offline
       (JStr INSTANCE_PRINCIPAL_PROFILE_NAME) (JStr "ocid1.tenancy.x");
     mkRequest ApiCompartments instance_mode_unbuilt
       (JStr INSTANCE_PRINCIPAL_PROFILE_NAME) JUndefined] in
  let st1 := (get_compartments instance_mode_env
                (JStr INSTANCE_PRINCIPAL_PROFILE_NAME) JUndefined server_start).2 in
  let st2 := serve_all between st1 in
  metadata_requests st2 = metadata_requests st1
  ∧ calls (get_compartments instance_mode_offline
             (JStr INSTANCE_PRINCIPAL_PROFILE_NAME) JUndefined st2).2
    = calls st2
      ++ [CallListCompartments InstancePrincipalsProvider (JStr "ocid1.tenancy.x")].
Proof.
  intros between st1 st2.
  pose proof (root_serves_later_listings instance_mode_env instance_mode_offline
                JUndefined JUndefined between "ocid1.tenancy.x" server_start
                eq_refl eq_refl eq_refl metadata_reply_yields eq_refl)
    as (_ & _ & Hcount & Hlater & _).
  split; [exact Hcount | exact Hlater].
Defined.

Lemma failure_body (ep : endpoint) (env : Env) (profile arg : jsval)
    (st : ServerState) :
  status (handle ep env profile arg st).1 ≠ 200 →
  ∃ message,
    body (handle ep env profile arg st).1 = error_body message
    ∧ truthy message = true.
Proof.
  assert (∀ c fallback st',
            fallback ≠ "" →
            status (call_upstream env c fallback st').1 ≠ 200 →
            ∃ message,
              body (call_upstream env c fallback st').1 = error_body message
              ∧ truthy message = true) as Hup.
  { intros c fallback st' Hf. unfold call_upstream.
    destruct (upstream env) as [items|message]; [done|]. intros _.
    eexists. split; [done|]. unfold js_or.
    destruct (truthy message) eqn:Hm; [done|]. by destruct fallback. }
  assert (∀ message fallback, fallback ≠ "" →
            truthy (js_or message (JStr fallback)) = true) as Hor.
  { intros message fallback Hf. unfold js_or.
    destruct (truthy message) eqn:Hm; [done|]. by destruct fallback. }
  destruct ep; cbn [handle].
  - unfold get_compartments. destruct (INSTANCE_PRINCIPAL_MODE env).
    + destruct (negb (strict_eq_str _ _)); [by eexists|].
      destruct (client_error env); [eexists; split; [done|by apply Hor]|].
      destruct (getInstanceTenancyOcid (metadata env) st) as [tenancyId st1].
      destruct (negb (truthy tenancyId)); [by eexists | by apply Hup].
    + destruct (negb (truthy profile)); [by eexists|].
      destruct (loadOciProfile profile (config_file env)); [|by eexists].
      destruct (client_error env); [eexists; split; [done|by apply Hor]|].
      by apply Hup.
  - unfold get_policies. destruct (INSTANCE_PRINCIPAL_MODE env).
    + destruct (negb (strict_eq_str _ _)); [by eexists|].
      destruct (negb (truthy arg)); [by eexists|].
      destruct (client_error env); [eexists; split; [done|by apply Hor]|].
      by apply Hup.
    + destruct (negb (truthy profile) || negb (truthy arg)); [by eexists|].
      destruct (loadOciProfile profile (config_file env)); [|by eexists].
      destruct (client_error env); [eexists; split; [done|by apply Hor]|].
      by apply Hup.
Qed.

(** X6. A response that is no success says why: whenever a route answers
    with a status other than 200 the body is an object whose [error] is a
    truthy value (the message of the failure or the fallback of the
    route). *)
Theorem error_has_message (ep : endpoint) (env : Env) (profile arg : jsval)
    (st : ServerState) :
  status (handle ep env profile arg st).1 ≠ 200 →
  ∃ message,
    body (handle ep env profile arg st).1 = error_body message
    ∧ truthy message = true.
Proof. apply failure_body. Qed.

Lemma error_has_message_witness :
  ∃ message,
    body (handle ApiCompartments profile_mode_env (JStr "prod") JUndefined
            server_start).1 = error_body message
    ∧ truthy message = true.
Proof.
  apply (error_has_message ApiCompartments profile_mode_env (JStr "prod")
           JUndefined server_start).
  vm_compute. discriminate.
Defined.

End BackendMore.

(** ** More of the navigation controller *)

Module FrontendMore.

Import Frontend FrontendFacts.

Lemma root_fetchPolicies profile compartmentId w :
  profileRootId (sess (fetchPolicies profile compartmentId w))
  = profileRootId (sess w).
Proof. unfold fetchPolicies. by destruct (negb _ || negb _). Qed.

Lemma root_fetchChildren profile parentId setRootId w :
  profileRootId (sess (fetchChildren profile parentId setRootId w))
  = profileRootId (sess w).
Proof. unfold fetchChildren. by destruct (negb _). Qed.




Lemma profile_fetchPolicies profile compartmentId w :
  selectedProfile (sess (fetchPolicies profile compartmentId w))
  = selectedProfile (sess w).
Proof. unfold fetchPolicies. by destruct (negb _ || negb _). Qed.

Lemma profile_fetchChildren profile parentId setRootId w :
  selectedProfile (sess (fetchChildren profile parentId setRootId w))
  = selectedProfile (sess w).
Proof. unfold fetchChildren. by destruct (negb _). Qed.

(** The navigation handlers leave the profile and the root id alone. *)
Lemma lifted_step_nav op w :
  selectedProfile (sess (step w (nav_event op))) = selectedProfile (sess w)
  ∧ profileRootId (sess (step w (nav_event op))) = profileRootId (sess w).
Proof.
  destruct op as [c|]; cbn [nav_event step];
    unfold handleDrilldown, handleBack; cbn [prop];
    by rewrite profile_fetchPolicies, profile_fetchChildren,
         root_fetchPolicies, root_fetchChildren.
Qed.




Lemma root_settle c o w :
  sets_root c = false →
  profileRootId (sess (settle_chain c o w).1) = profileRootId (sess w).
Proof.
  intros Hc. destruct c as [profile parentId setRootId|]; cbn in Hc; subst;
    destruct o as [|[data|]]; try destruct data; unfold_chain; try done.
  cbn [root_hint truthy]. cbn. by rewrite root_fetchPolicies.
Qed.

(** X9. The root id is set by nothing but a change of profile and the
    response to the listing that the change asked for: drill-down, back
    and the settling of every other fetch leave it as it is. *)
Theorem root_id_kept (w : World) (e : event) :
  may_set_root w e = false →
  profileRootId (sess (step w e)) = profileRootId (sess w).
Proof.
  intros He. destruct e as [profile|c| |i o]; [done| | |].
  - cbn [step]. unfold handleDrilldown.
    destruct (prop c "id"); [|done]. destruct (prop c "name"); [|done].
    by rewrite root_fetchPolicies, root_fetchChildren.
  - apply (lifted_step_nav GoBack w).
  - cbn [step]. cbn [may_set_root] in He.
    destruct (fetches w !! i) as [f|]; [|done]. by apply root_settle.
Qed.

Lemma root_id_kept_witness :
  profileRootId
    (sess (step (run dev_drilled initial) (Settle 2 (Responded (Some (JArr root_listing))))))
  = profileRootId (sess (run dev_drilled initial)).
Proof.
  apply (root_id_kept (run dev_drilled initial)
           (Settle 2 (Responded (Some (JArr root_listing))))).
  vm_compute. reflexivity.
Defined.

(** X10. A settled fetch lowers its loading flag, whatever it came to and
    whatever else is in flight; issuing a fetch raises it. *)
Theorem loading_flag_follows (c : continuation) (o : outcome) (w : World)
    (profile : string) (target : jsval) (setRootId : bool) :
  nonempty profile = true →
  loading_flag c (sess (settle_chain c o w).1) = false
  ∧ loadingCompartments (sess (fetchChildren profile target setRootId w)) = true
  ∧ (truthy target = true →
     loadingPolicies (sess (fetchPolicies profile target w)) = true).
Proof.
  intros Hp. split; [|split].
  - destruct c as [p parentId b|]; destruct o as [|[data|]];
      try destruct data; unfold_chain; try done.
    destruct (root_hint b items); done.
  - unfold fetchChildren. by rewrite Hp.
  - intros Ht. unfold fetchPolicies. by rewrite Hp, Ht.
Qed.

Lemma loading_flag_follows_witness :
  loadingCompartments
    (sess (settle_chain (KChildren "dev" (JStr "") true) NetworkFailure
             dev_selected).1) = false
  ∧ loadingCompartments (sess dev_selected) = true.
Proof.
  pose proof (loading_flag_follows (KChildren "dev" (JStr "") true) NetworkFailure
                dev_selected "dev" (JStr "") true eq_refl) as (Hlow & _ & _).
  split; [exact Hlow | reflexivity].
Defined.

(** *** The log of fetches only grows *)

Lemma fetches_fetchPolicies profile compartmentId w :
  ∃ new, fetches (fetchPolicies profile compartmentId w) = fetches w ++ new
         ∧ length new ≤ 1.
Proof.
  unfold fetchPolicies. destruct (negb _ || negb _).
  - exists []. rewrite app_nil_r. split; [done | cbn; lia].
  - eexists [_]. split; [done | cbn; lia].
Qed.

Lemma fetches_fetchChildren profile parentId setRootId w :
  ∃ new, fetches (fetchChildren profile parentId setRootId w) = fetches w ++ new
         ∧ length new ≤ 1.
Proof.
  unfold fetchChildren. destruct (negb _).
  - exists []. rewrite app_nil_r. split; [done | cbn; lia].
  - eexists [_]. split; [done | cbn; lia].
Qed.

Lemma fetches_fetch_pair profile target b w :
  ∃ new, fetches (fetchPolicies profile target (fetchChildren profile target b w))
         = fetches w ++ new ∧ length new ≤ 2.
Proof.
  destruct (fetches_fetchChildren profile target b w) as (new1 & H1 & Hl1).
  destruct (fetches_fetchPolicies profile target (fetchChildren profile target b w))
    as (new2 & H2 & Hl2).
  exists (new1 ++ new2). rewrite H2, H1, app_assoc, length_app. split; [done|lia].
Qed.

Lemma fetches_settle c o w :
  ∃ new, fetches (settle_chain c o w).1 = fetches w ++ new ∧ length new ≤ 1.
Proof.
  assert (∃ new, fetches w = fetches w ++ new ∧ length new ≤ 1) as Hsame.
  { exists []. rewrite app_nil_r. split; [done | cbn; lia]. }
  destruct c as [p parentId b|]; destruct o as [|[data|]];
    try destruct data; unfold_chain; try exact Hsame.
  destruct (root_hint b items) as [hint|]; [|exact Hsame].
  cbn [fetches setLoadingCompartments].
  destruct (fetches_fetchPolicies p (if truthy hint then hint else parentId)
              (if truthy hint then setProfileRootId (setCompartments w items) hint
               else setCompartments w items)) as (new & Hnew & Hlen).
  exists new. rewrite Hnew. by destruct (truthy hint).
Qed.

Lemma step_appends w e :
  ∃ new, fetches (step w e) = fetches w ++ new ∧ length new ≤ 2.
Proof.
  assert (∃ new, fetches w = fetches w ++ new ∧ length new ≤ 2) as Hsame.
  { exists []. rewrite app_nil_r. split; [done|cbn; lia]. }
  destruct e as [profile|c| |i o]; cbn [step].
  - destruct (negb _); [|exact Hsame].
    unfold selectedProfile_effect. destruct (nonempty _); [|exact Hsame].
    destruct (fetches_fetchChildren
                (selectedProfile (sess (handleProfileChange profile w))) (JStr "") true
                (setCompartmentStack (handleProfileChange profile w) []))
      as (new & Hnew & Hlen).
    exists new. split; [exact Hnew | lia].
  - unfold handleDrilldown.
    destruct (prop c "id") as [c_id|]; [|exact Hsame].
    destruct (prop c "name") as [c_name|]; [|exact Hsame].
    apply (fetches_fetch_pair _ c_id false (setCompartmentStack w _)).
  - unfold handleBack. apply (fetches_fetch_pair _ _ false (setCompartmentStack w _)).
  - destruct (fetches w !! i) as [f|]; [|exact Hsame].
    destruct (fetches_settle (k f) o w) as (new & Hnew & Hlen).
    exists new. split; [exact Hnew | lia].
Qed.

Lemma run_appends events w :
  ∃ new, fetches (run events w) = fetches w ++ new.
Proof.
  revert w. induction events as [|e events IH]; intros w.
  - exists []. by rewrite app_nil_r.
  - destruct (step_appends w e) as (new1 & H1 & _).
    destruct (IH (step w e)) as (new2 & H2).
    exists (new1 ++ new2). cbn [run fold_left]. unfold run in H2.
    by rewrite H2, H1, app_assoc.
Qed.

(** X11. The log of fetches only grows, and by little: an event adds at
    most two fetches to it (a navigation its two, a change of profile and
    a settled listing one) and removes or alters none, so a fetch keeps
    its place in the log through everything that follows. *)
Theorem fetch_log_grows (w : World) (e : event) (later : list event)
    (i : nat) (f : fetch) :
  fetches w !! i = Some f →
  (∃ new, fetches (step w e) = fetches w ++ new ∧ length new ≤ 2)
  ∧ fetches (run later w) !! i = Some f.
Proof.
  intros Hf. split; [apply step_appends|].
  destruct (run_appends later w) as (new & ->). by apply lookup_app_l_Some.
Qed.

Lemma fetch_log_grows_witness :
  fetches (run [Back] dev_selected) !! 0
  = Some (mkFetch (GetCompartments "dev" None) (KChildren "dev" (JStr "") true)).
Proof.
  refine (proj2 (fetch_log_grows dev_selected Back [Back] 0
                   (mkFetch (GetCompartments "dev" None)
                            (KChildren "dev" (JStr "") true)) _)).
  vm_compute. reflexivity.
Defined.

(** X12. No response is out of date for a browser that stays mounted. The
    response of a navigation fetch (a listing asked for by drill-down or
    back, or a policies-fetch) is applied when it arrives, whatever the
    browser handled since the fetch was issued: changes of profile,
    drill-downs, backs and the responses of other fetches, in any number
    and order. An array replaces the list of the fetch, and the stack and
    the root id stay where those later events put them. The events are
    those of one mounted browser: opening a policy and coming back mounts
    a new one, and a response to a fetch of the old one is not covered. *)
Theorem late_response_is_applied (w : World) (i : nat) (f : fetch)
    (later : list event) (items : list jsval) :
  fetches w !! i = Some f →
  sets_root (k f) = false →
  let w1 := run later w in
  let w2 := step w1 (Settle i (Responded (Some (JArr items)))) in
  loaded_list (k f) (sess w2) = items
  ∧ compartmentStack (sess w2) = compartmentStack (sess w1)
  ∧ profileRootId (sess w2) = profileRootId (sess w1).
Proof.
  intros Hf Hroot w1 w2.
  assert (fetches w1 !! i = Some f) as Hf1.
  { unfold w1. destruct (run_appends later w) as (new & ->).
    by apply lookup_app_l_Some. }
  assert (w2 = (settle_chain (k f) (Responded (Some (JArr items))) w1).1) as ->.
  { unfold w2. by apply step_settle. }
  split; [|split].
  - destruct (k f) as [p parentId b|]; cbn in Hroot; subst; unfold_chain;
      cbn [root_hint truthy]; cbn; [|done].
    unfold fetchPolicies. by destruct (negb _ || negb _).
  - apply settle_handled.
  - by apply root_settle.
Qed.

Lemma late_response_is_applied_witness :
  compartments
    (sess (step (run [Back] (run dev_drilled initial))
             (Settle 2 (Responded (Some (JArr [JObj billing]))))))
  = [JObj billing].
Proof.
  assert (fetches (run dev_drilled initial) !! 2
          = Some (mkFetch (GetCompartments "dev" (Some (JStr "ocid1.compartment.y")))
                          (KChildren "dev" (JStr "ocid1.compartment.y") false)))
    as Hf by (vm_compute; reflexivity).
  exact (proj1 (late_response_is_applied (run dev_drilled initial) 2 _ [Back]
                  [JObj billing] Hf eq_refl)).
Defined.

(** *** Change of profile *)

Lemma select_new profile w :
  profile ≠ selectedProfile (sess w) →
  step w (SelectProfile profile)
  = selectedProfile_effect (handleProfileChange profile w).
Proof.
  intros Hnew. cbn [step]. by rewrite bool_decide_eq_false_2.
Qed.

Lemma select_new_fetches profile w :
  profile ≠ selectedProfile (sess w) →
  nonempty profile = true →
  fetches (step w (SelectProfile profile))
  = fetches w ++ [mkFetch (GetCompartments profile None)
                          (KChildren profile (JStr "") true)].
Proof.
  intros Hnew Hp. rewrite select_new by done.
  unfold selectedProfile_effect, handleProfileChange.
  cbn [sess selectedProfile setSelectedProfile setCompartments setPolicies
       setCompartmentStack setProfileRootId].
  rewrite Hp. unfold fetchChildren. by rewrite Hp.
Qed.


Lemma select_new_state profile w :
  profile ≠ selectedProfile (sess w) →
  let s := sess (step w (SelectProfile profile)) in
  compartmentStack s = []
  ∧ selectedProfile s = profile
  ∧ profileRootId s = JStr ""
  ∧ compartments s = []
  ∧ policies s = [].
Proof.
  intros Hnew. cbn zeta. rewrite select_new by done.
  unfold selectedProfile_effect, handleProfileChange.
  cbn [sess selectedProfile setSelectedProfile setCompartments setPolicies
       setCompartmentStack setProfileRootId].
  destruct (nonempty profile) eqn:Hp; [|done].
  unfold fetchChildren. by rewrite Hp.
Qed.

(** X13. A change of profile starts over: the profile is the chosen one,
    the stack, the root id and both lists are empty, and the only request
    sent is the root listing of the chosen profile, or none when the
    selection was cleared. *)
Theorem profile_change_resets (w : World) (profile : string) :
  profile ≠ selectedProfile (sess w) →
  let w' := step w (SelectProfile profile) in
  selectedProfile (sess w') = profile
  ∧ compartmentStack (sess w') = []
  ∧ profileRootId (sess w') = JStr ""
  ∧ compartments (sess w') = []
  ∧ policies (sess w') = []
  ∧ issued_by (SelectProfile profile) w
    = if nonempty profile then [GetCompartments profile None] else [].
Proof.
  intros Hnew w'. unfold w'.
  assert (issued_by (SelectProfile profile) w
          = if nonempty profile then [GetCompartments profile None] else []) as Hissued.
  { destruct (nonempty profile) eqn:Hp.
    - apply (issued_by_app _ _ [mkFetch (GetCompartments profile None)
                                        (KChildren profile (JStr "") true)]).
      by apply select_new_fetches.
    - apply (issued_by_app _ _ []). rewrite select_new by done.
      unfold selectedProfile_effect, handleProfileChange.
      cbn [sess selectedProfile setSelectedProfile setCompartments setPolicies
           setCompartmentStack setProfileRootId].
      rewrite Hp. cbn. by rewrite app_nil_r. }
  destruct (select_new_state profile w Hnew) as (Hs & Hp & Hr & Hc & Hpol).
  by repeat split.
Qed.

Lemma profile_change_resets_witness :
  compartmentStack (sess (step (run dev_drilled initial) (SelectProfile "prod"))) = []
  ∧ issued_by (SelectProfile "prod") (run dev_drilled initial)
    = [GetCompartments "prod" None].
Proof.
  assert ("prod" ≠ selectedProfile (sess (run dev_drilled initial))) as Hnew
    by (vm_compute; discriminate).
  pose proof (profile_change_resets (run dev_drilled initial) "prod" Hnew)
    as (_ & Hstack & _ & _ & _ & Hissued).
  split; [exact Hstack | exact Hissued].
Defined.





End FrontendMore.

(** ** The views of [App], the list of profiles, client and server *)

Module AppFacts.

Import Frontend FrontendFacts FrontendMore App.

(** X16. The lifted path does not survive the policy view. Coming back
    from the view of a policy mounts the browser anew, and its effect on
    the selected profile empties the stack and asks for the root listing
    again; the root id and the profile stay. *)
Theorem policy_view_resets_path (st : AppState) (policy : jsval) :
  tab st = "main" →
  nonempty (selectedProfile (sess (browser st))) = true →
  let st' := app_step (app_step st (PolicyClick policy)) DetailBack in
  let profile := selectedProfile (sess (browser st)) in
  tab st' = "main"
  ∧ compartmentStack (sess (browser st')) = []
  ∧ compartments (sess (browser st')) = []
  ∧ selectedProfile (sess (browser st')) = profile
  ∧ profileRootId (sess (browser st')) = profileRootId (sess (browser st))
  ∧ sent (browser st') = sent (browser st) ++ [GetCompartments profile None].
Proof.
  intros Htab Hp st' profile. unfold st'. cbn [app_step tab browser].
  rewrite bool_decide_eq_false_2 by discriminate.
  unfold mount, selectedProfile_effect.
  cbn [sess selectedProfile setCompartments setPolicies setLoadingCompartments
       setLoadingPolicies setError].
  rewrite Hp. unfold fetchChildren. rewrite Hp. cbn [negb truthy].
  split; [done|]. unfold sent. cbn. by rewrite fmap_app.
Qed.

Lemma policy_view_resets_path_witness :
  let st := mkApp "main" JNull (run dev_drilled initial) in
  compartmentStack
    (sess (browser (app_step (app_step st (PolicyClick (JObj sales))) DetailBack))) = []
  ∧ compartmentStack (sess (browser st)) = [entry_of sales].
Proof.
  assert (nonempty (selectedProfile (sess (run dev_drilled initial))) = true) as Hp
    by (vm_compute; reflexivity).
  pose proof (policy_view_resets_path (mkApp "main" JNull (run dev_drilled initial))
                (JObj sales) eq_refl Hp) as (_ & Hstack & _).
  split; [exact Hstack | vm_compute; reflexivity].
Defined.

Lemma one_view_step st e :
  xorb (shows_browser st) (shows_detail st) = true →
  from_option truthy true (clicked_policy e) = true →
  xorb (shows_browser (app_step st e)) (shows_detail (app_step st e)) = true.
Proof.
  intros _ He. destruct e as [policy|]; cbn in He |- *; [|done].
  unfold shows_browser, shows_detail. cbn [tab selectedPolicy]. by rewrite He.
Qed.

(** X17. One view at a time. From the start, through every sequence of
    clicks on policies (each a truthy value of the list) and returns,
    exactly one of the two views is rendered: the browser or the policy
    shown. *)
Theorem one_view_shown (events : list app_event) :
  Forall (λ e, from_option truthy true (clicked_policy e) = true) events →
  let st := fold_left app_step events app_start in
  xorb (shows_browser st) (shows_detail st) = true.
Proof.
  intros Hev. cbn zeta.
  assert (xorb (shows_browser app_start) (shows_detail app_start) = true) as Hstart
    by done.
  revert Hstart. generalize app_start as st.
  induction Hev as [|e events He Hev IH]; intros st Hst; [done|].
  cbn [fold_left]. apply IH. by apply one_view_step.
Qed.

Lemma one_view_shown_witness :
  let st := fold_left app_step [PolicyClick (JObj sales); DetailBack;
                                PolicyClick (JObj billing)] app_start in
  xorb (shows_browser st) (shows_detail st) = true.
Proof.
  apply (one_view_shown [PolicyClick (JObj sales); DetailBack;
                         PolicyClick (JObj billing)]).
  repeat constructor.
Defined.

End AppFacts.

Module WireFacts.

Import ConfigStore Backend BackendMore Frontend FrontendFacts ProfilePicker Wire.

Lemma error_body_read message :
  prop (JObj [("error", message)]) "error" = Some message
  ∧ prop (JObj [("error", message)]) "profiles" = Some JUndefined.
Proof. cbn. by destruct message. Qed.

Lemma settle_error_body c message w :
  truthy message = true →
  error (sess (settle_chain c (Responded (Some (error_body message))) w).1) = message
  ∧ loaded_list c (sess (settle_chain c (Responded (Some (error_body message))) w).1)
    = [].
Proof.
  intros Hm.
  destruct c as [p parentId b|];
    cbv [settle_chain then_ catch_ to_json fetch_promise children_then
         policies_then error_body fst snd];
    rewrite (proj1 (error_body_read message)); unfold js_or; by rewrite Hm.
Qed.

(** X18. The selector offers what the server lists. The body that
    [/api/profiles] sends, read by the effect that runs at mount, leaves
    in [profiles] exactly the names of the server (the sentinel alone in
    instance-principal mode, else the headers of the configuration file,
    none when it cannot be read), lowers the loading flag and sets no
    error. *)
Theorem selector_offers_server_list (env : Env) (w : World) :
  let p := settle_profiles (answer (get_profiles env)) (mounted w) in
  profiles p
  = JArr (JStr <$> (if INSTANCE_PRINCIPAL_MODE env
                    then [INSTANCE_PRINCIPAL_PROFILE_NAME]
                    else listOciProfiles (config_file env)))
  ∧ loadingProfiles p = false
  ∧ world p = w.
Proof.
  cbn zeta. unfold get_profiles, answer, settle_profiles.
  cbn [body prop lookup_field]. rewrite bool_decide_eq_true_2 by done.
  by destruct (INSTANCE_PRINCIPAL_MODE env).
Qed.

(** X19. When the list of profiles cannot be had. A failed request, a
    body that is no JSON and a [null] body set the message "Could not
    load profiles." and leave the list as it was; a body that is an error
    object of the server is taken for an empty list, and no message is
    set. In every case the loading flag is lowered. *)
Theorem profiles_unavailable (o : outcome) (message : jsval) (p : Picker) :
  o = NetworkFailure ∨ o = Responded None ∨ o = Responded (Some JNull) →
  (error (sess (world (settle_profiles o p))) = JStr "Could not load profiles."
   ∧ profiles (settle_profiles o p) = profiles p
   ∧ loadingProfiles (settle_profiles o p) = false)
  ∧ let q := settle_profiles (Responded (Some (error_body message))) p in
    profiles q = JArr [] ∧ world q = world p ∧ loadingProfiles q = false.
Proof.
  intros Ho. split.
  - by destruct Ho as [-> | [-> | ->]].
  - cbn zeta. unfold settle_profiles, error_body.
    by rewrite (proj2 (error_body_read message)).
Qed.

Lemma profiles_unavailable_witness :
  error (sess (world (settle_profiles NetworkFailure (mounted initial))))
  = JStr "Could not load profiles."
  ∧ profiles (settle_profiles
                (Responded (Some (error_body (JStr "Failed to get profiles"))))
                (mounted initial)) = JArr [].
Proof.
  pose proof (profiles_unavailable NetworkFailure (JStr "Failed to get profiles")
                (mounted initial) (or_introl eq_refl)) as ((Herr & _) & Hlist & _).
  split; [exact Herr | exact Hlist].
Defined.

(** X20. The message of the server is the message shown. When a route
    answers with a status other than 200 and the client reads that answer
    as the response of a children- or policies-fetch, the error of the
    session is the [error] of the body and the list of the fetch is
    empty. *)
Theorem server_error_is_shown (ep : endpoint) (env : Env) (profile arg : jsval)
    (st : ServerState) (c : continuation) (w : World) :
  status (handle ep env profile arg st).1 ≠ 200 →
  let w' := (settle_chain c (answer (handle ep env profile arg st).1) w).1 in
  body (handle ep env profile arg st).1 = error_body (error (sess w'))
  ∧ truthy (error (sess w')) = true
  ∧ loaded_list c (sess w') = [].
Proof.
  intros Hstatus. cbn zeta.
  destruct (failure_body ep env profile arg st Hstatus) as (message & Hbody & Hm).
  unfold answer. rewrite Hbody.
  destruct (settle_error_body c message w Hm) as [-> ->]. by rewrite Hm.
Qed.

Lemma server_error_is_shown_witness :
  error (sess (settle_chain (KChildren "prod" (JStr "") true)
                 (answer (handle ApiCompartments profile_mode_env (JStr "prod")
                            JUndefined server_start).1)
                 initial).1)
  = JStr "Profile not found".
Proof.
  assert (status (handle ApiCompartments profile_mode_env (JStr "prod") JUndefined
                    server_start).1 ≠ 200) as Hstatus by (vm_compute; discriminate).
  pose proof (server_error_is_shown ApiCompartments profile_mode_env (JStr "prod")
                JUndefined server_start (KChildren "prod" (JStr "") true) initial
                Hstatus) as (Hbody & _).
  vm_compute in Hbody. by simplify_eq.
Defined.

(** X21. The controller sends no request that lacks a parameter. Every
    fetch in the log of a session, served by the routes, is answered with
    a status other than 400, except in instance-principal mode when the
    profile of the request is not the sentinel: the guards of
    [fetchChildren] and [fetchPolicies] keep the empty profile and the
    empty compartment id from the wire. *)
Theorem requests_carry_parameters (events : list event) (i : nat) (f : fetch)
    (env : Env) (st st' : ServerState) (r : Response) :
  fetches (run events initial) !! i = Some f →
  serve env (url f) st = Some (r, st') →
  status r = 400 →
  INSTANCE_PRINCIPAL_MODE env = true
  ∧ request_profile (url f) ≠ INSTANCE_PRINCIPAL_PROFILE_NAME.
Proof.
  intros Hf Hserve Hstatus.
  pose proof (well_formed_reachable events) as Hwf.
  rewrite Forall_lookup in Hwf. specialize (Hwf i f Hf). unfold well_formed in Hwf.
  assert (∀ c fallback s0 r0 s1,
            call_upstream env c fallback s0 = (r0, s1) → status r0 ≠ 400) as Hup.
  { intros c fallback s0 r0 s1 Heq.
    destruct (call_upstream_status env c fallback s0) as [H|H];
      rewrite Heq in H; cbn in H; rewrite H; discriminate. }
  assert (∀ profile, nonempty profile = true → truthy (JStr profile) = true) as Htr
    by (by intros []).
  assert (∀ profile, strict_eq_str (JStr profile) INSTANCE_PRINCIPAL_PROFILE_NAME = false →
            profile ≠ INSTANCE_PRINCIPAL_PROFILE_NAME) as Hne.
  { intros profile Hs ->. cbn in Hs. by rewrite bool_decide_eq_true_2 in Hs. }
  destruct (k f) as [profile parentId b|].
  - destruct Hwf as (Hp & _ & Hurl). rewrite Hurl in Hserve |- *.
    cbn [request_profile].
    assert (∀ parent, get_compartments env (JStr profile) parent st = (r, st') →
              INSTANCE_PRINCIPAL_MODE env = true
              ∧ profile ≠ INSTANCE_PRINCIPAL_PROFILE_NAME) as Hget.
    { intros parent. unfold get_compartments. rewrite (Htr _ Hp). cbn [negb].
      destruct (INSTANCE_PRINCIPAL_MODE env).
      - destruct (strict_eq_str _ _) eqn:Hs; cbn [negb].
        + destruct (client_error env); [intros ?; by simplify_eq|].
          destruct (getInstanceTenancyOcid _ _) as [tenancyId st1].
          destruct (negb (truthy tenancyId)); [intros ?; by simplify_eq|].
          intros Heq. by apply Hup in Heq.
        + intros _. split; [done|by apply Hne].
      - destruct (loadOciProfile _ _); [|intros ?; by simplify_eq].
        destruct (client_error env); [intros ?; by simplify_eq|].
        intros Heq. by apply Hup in Heq. }
    destruct (truthy parentId); cbn [serve] in Hserve.
    + destruct parentId; try done. apply (Hget (JStr s)). by simplify_eq.
    + apply (Hget JUndefined). by simplify_eq.
  - destruct Hwf as (profile & compartmentId & Hurl & Hp & Hc).
    rewrite Hurl in Hserve |- *. cbn [request_profile serve] in Hserve |- *.
    destruct compartmentId; try done. simplify_eq. revert Hserve.
    unfold get_policies. rewrite (Htr _ Hp), Hc. cbn [negb orb].
    destruct (INSTANCE_PRINCIPAL_MODE env).
    + destruct (strict_eq_str _ _) eqn:Hs; cbn [negb].
      * destruct (client_error env); [intros ?; by simplify_eq|].
        intros Heq. by apply Hup in Heq.
      * intros _. split; [done|by apply Hne].
    + destruct (loadOciProfile _ _); [|intros ?; by simplify_eq].
      destruct (client_error env); [intros ?; by simplify_eq|].
      intros Heq. by apply Hup in Heq.
Qed.

Lemma requests_carry_parameters_witness :
  INSTANCE_PRINCIPAL_MODE instance_mode_env = true
  ∧ request_profile (GetCompartments "dev" None) ≠ INSTANCE_PRINCIPAL_PROFILE_NAME.
Proof.
  assert (fetches (run [SelectProfile "dev"] initial) !! 0
          = Some (mkFetch (GetCompartments "dev" None) (KChildren "dev" (JStr "") true)))
    as Hf by (vm_compute; reflexivity).
  exact (requests_carry_parameters [SelectProfile "dev"] 0 _ instance_mode_env
           server_start server_start sentinel_required Hf eq_refl eq_refl).
Defined.

End WireFacts.

(** ** More of the configuration store *)

Module ConfigStoreMore.

Import ConfigStore ConfigStoreFacts.

(** *** Strings *)

Lemma app_cons c s t : String c s +:+ t = String c (s +:+ t).
Proof. reflexivity. Qed.

Lemma app_empty_r s : s +:+ "" = s.
Proof. induction s as [|c s IH]; [done|]. by rewrite app_cons, IH. Qed.

Lemma app_assoc_string s t u : (s +:+ t) +:+ u = s +:+ (t +:+ u).
Proof. induction s as [|c s IH]; [done|]. by rewrite !app_cons, IH. Qed.

Lemma rev_app_spec s t : String.rev_app s t = String.rev s +:+ t.
Proof.
  unfold String.rev. revert t. induction s as [|c s IH]; intros t; [done|].
  cbn [String.rev_app]. rewrite (IH (String c t)), (IH (String c "")).
  by rewrite app_assoc_string.
Qed.

Lemma rev_cons c s : String.rev (String c s) = String.rev s +:+ String c "".
Proof. unfold String.rev at 1. cbn [String.rev_app]. apply rev_app_spec. Qed.

Lemma rev_cons_app c s t :
  String.rev (String c s) +:+ t = String.rev s +:+ String c t.
Proof. by rewrite rev_cons, app_assoc_string. Qed.

Lemma rev_app_distr s t : String.rev (s +:+ t) = String.rev t +:+ String.rev s.
Proof.
  induction s as [|c s IH]; [by rewrite app_empty_r|].
  by rewrite app_cons, !rev_cons, IH, app_assoc_string.
Qed.

Lemma rev_involutive s : String.rev (String.rev s) = s.
Proof.
  induction s as [|c s IH]; [done|].
  by rewrite rev_cons, rev_app_distr, IH.
Qed.

Lemma contains_app c s t : contains c (s +:+ t) = contains c s || contains c t.
Proof.
  induction s as [|c' s IH]; [done|].
  rewrite app_cons. cbn [contains]. by rewrite IH, orb_assoc.
Qed.

Lemma contains_rev c s : contains c (String.rev s) = contains c s.
Proof.
  induction s as [|c' s IH]; [done|].
  rewrite rev_cons, contains_app, IH. cbn [contains].
  rewrite orb_false_r. apply orb_comm.
Qed.

Lemma nonempty_rev s : nonempty (String.rev s) = nonempty s.
Proof.
  destruct s as [|c s]; [done|]. rewrite rev_cons.
  by destruct (String.rev s).
Qed.

(** *** Lines *)

Lemma split_LF cur rest :
  split_lines_go cur (String LF rest)
  = String.rev cur :: split_lines_go "" rest.
Proof. reflexivity. Qed.

Lemma split_CRLF cur rest :
  split_lines_go cur (String CR (String LF rest))
  = String.rev cur :: split_lines_go "" rest.
Proof. reflexivity. Qed.

Lemma split_inside c cur rest :
  c ≠ LF →
  (c = CR → ∀ rest2, rest ≠ String LF rest2) →
  split_lines_go cur (String c rest) = split_lines_go (String c cur) rest.
Proof.
  intros Hlf Hcr. cbn [split_lines_go].
  rewrite bool_decide_eq_false_2 by done.
  destruct rest as [|c2 rest2]; [done|].
  destruct (bool_decide_reflect (c = CR)) as [Hc|Hc]; [|done].
  destruct (bool_decide_reflect (c2 = LF)) as [->|Hc2]; [|done].
  by destruct (Hcr Hc rest2).
Qed.

(** The first line of a split begins with what was read of it, and
    nothing else of the split depends on that. *)
Lemma split_head s :
  ∃ tail ls, ∀ cur, split_lines_go cur s = (String.rev cur +:+ tail) :: ls.
Proof.
  induction s as [|c rest (tail & ls & IH)].
  - exists "", []. intros cur. cbn. by rewrite app_empty_r.
  - destruct (decide (c = LF)) as [->|Hlf].
    { exists "", (split_lines_go "" rest). intros cur.
      by rewrite split_LF, app_empty_r. }
    assert ((c = CR ∧ ∃ rest2, rest = String LF rest2)
            ∨ (c = CR → ∀ rest2, rest ≠ String LF rest2)) as [(-> & rest2 & ->)|Hcr].
    { destruct (decide (c = CR)) as [->|Hc]; [|by right].
      destruct rest as [|c2 rest2]; [by right|].
      destruct (decide (c2 = LF)) as [->|Hc2]; [left; eauto|].
      right. intros _ rest3 Heq. by simplify_eq. }
    { exists "", (split_lines_go "" rest2). intros cur.
      by rewrite split_CRLF, app_empty_r. }
    exists (String c tail), ls. intros cur.
    by rewrite split_inside, IH, rev_cons_app.
Qed.

Lemma char_cases c rest :
  c = LF
  ∨ (c = CR ∧ ∃ rest2, rest = String LF rest2)
  ∨ (c ≠ LF ∧ (c = CR → ∀ rest2, rest ≠ String LF rest2)).
Proof.
  destruct (decide (c = LF)) as [->|Hlf]; [by left|]. right.
  destruct (decide (c = CR)) as [->|Hc]; [|by right].
  destruct rest as [|c2 rest2]; [by right|].
  destruct (decide (c2 = LF)) as [->|Hc2]; [left; eauto|].
  right. split; [done|]. intros _ rest3 Heq. by simplify_eq.
Qed.

Lemma first_line_has c cur rest first ls :
  split_lines_go (String c cur) rest = first :: ls → contains c first = true.
Proof.
  destruct (split_head rest) as (tail & ls' & Hsplit). rewrite Hsplit.
  intros Heq. simplify_eq. rewrite contains_app, contains_rev. cbn [contains].
  by rewrite bool_decide_eq_true_2.
Qed.

Lemma headers_cons line lines :
  omap match_header (line :: lines)
  = match match_header line with
    | Some header => header :: omap match_header lines
    | None => omap match_header lines
    end.
Proof. reflexivity. Qed.

Lemma exec_scan bol c rest :
  bol && bool_decide (c = "["%char) = false →
  exec_all bol None (String c rest) = exec_all (is_line_terminator c) None rest.
Proof. intros Hb. cbn [exec_all]. by rewrite Hb. Qed.

Lemma exec_in c acc rest :
  c ≠ "]"%char →
  exec_all false (Some acc) (String c rest) = exec_all false (Some (String c acc)) rest.
Proof. intros Hc. cbn [exec_all]. by rewrite bool_decide_eq_false_2. Qed.

Lemma until_close_in c acc t :
  c ≠ "]"%char → until_close acc (String c t) = until_close (String c acc) t.
Proof. intros Hc. cbn [until_close]. by rewrite bool_decide_eq_false_2. Qed.

(** A line that ends while a name is being read is no header, so it is
    not tidy. *)
Lemma open_name_untidy cur acc :
  (∀ t, startsWith "["%char (String.rev cur +:+ t) = true) →
  (∀ t, match_header (String.rev cur +:+ t) = until_close acc t) →
  tidy_line (String.rev cur) = false.
Proof.
  intros Hopen Hname. specialize (Hopen ""). specialize (Hname "").
  rewrite app_empty_r in Hopen, Hname. unfold tidy_line, is_header.
  rewrite Hopen, Hname. cbn. apply andb_false_r.
Qed.

(** The search of [listOciProfiles] and the split into lines of
    [loadOciProfile], read side by side over a tidy text: at the start of
    a line, inside a line, and inside the name of a header. *)
Lemma scan_lines n :
  ∀ s, String.length s ≤ n →
    (forallb tidy_line (split_lines_go "" s) = true →
     exec_all true None s = omap match_header (split_lines_go "" s))
    ∧ (∀ cur first ls,
         split_lines_go cur s = first :: ls →
         contains CR first = false →
         forallb tidy_line ls = true →
         exec_all false None s = omap match_header ls)
    ∧ (∀ cur acc first ls,
         split_lines_go cur s = first :: ls →
         tidy_line first = true →
         forallb tidy_line ls = true →
         (∀ t, startsWith "["%char (String.rev cur +:+ t) = true) →
         (∀ t, match_header (String.rev cur +:+ t) = until_close acc t) →
         exec_all false (Some acc) s = omap match_header (first :: ls)).
Proof.
  assert (∀ line, tidy_line line = true → contains CR line = false) as Hcr.
  { intros line Ht. unfold tidy_line in Ht.
    apply andb_true_iff in Ht as [Ht _]. by apply negb_true_iff in Ht. }
  induction n as [|n IH]; intros s Hlen.
  { destruct s; [|cbn in Hlen; lia]. split; [done|]. split.
    - intros cur first ls Hsplit. cbn in Hsplit. by simplify_eq.
    - intros cur acc first ls Hsplit Ht _ Hopen Hname. cbn in Hsplit. simplify_eq.
      by rewrite (open_name_untidy cur acc) in Ht. }
  destruct s as [|c rest].
  { apply (IH ""). cbn. lia. }
  cbn [String.length] in Hlen.
  destruct (IH rest ltac:(lia)) as (IH0 & IH1 & IH2).
  destruct (char_cases c rest) as [->|[(-> & rest2 & ->)|(Hlf & Hcrlf)]].
  - (* the line ends with LF *)
    split; [|split].
    + rewrite split_LF. cbn [forallb]. intros Ht%andb_true_iff.
      rewrite exec_scan by done. rewrite headers_cons. cbn [match_header].
      apply IH0, Ht.
    + intros cur first ls Hsplit _ Hls. rewrite split_LF in Hsplit. simplify_eq.
      rewrite exec_scan by done. by apply IH0.
    + intros cur acc first ls Hsplit Ht _ Hopen Hname.
      rewrite split_LF in Hsplit. simplify_eq.
      by rewrite (open_name_untidy cur acc) in Ht.
  - (* the line ends with CR LF *)
    cbn [String.length] in Hlen.
    destruct (IH rest2 ltac:(lia)) as (IH0' & _ & _).
    split; [|split].
    + rewrite split_CRLF. cbn [forallb]. intros Ht%andb_true_iff.
      rewrite !exec_scan by done. rewrite headers_cons. cbn [match_header].
      apply IH0', Ht.
    + intros cur first ls Hsplit _ Hls. rewrite split_CRLF in Hsplit. simplify_eq.
      rewrite !exec_scan by done. by apply IH0'.
    + intros cur acc first ls Hsplit Ht _ Hopen Hname.
      rewrite split_CRLF in Hsplit. simplify_eq.
      by rewrite (open_name_untidy cur acc) in Ht.
  - (* a character of the line *)
    destruct (decide (c = CR)) as [->|Hc].
    { (* a CR inside a line: the line is not tidy *)
      split; [|split].
      - rewrite split_inside by done. intros Ht.
        destruct (split_lines_go (String CR "") rest) as [|first ls] eqn:Hsplit;
          [by destruct (split_head rest) as (? & ? & Hs); rewrite Hs in Hsplit|].
        cbn [forallb] in Ht. apply andb_true_iff in Ht as [Ht _].
        apply Hcr in Ht. by rewrite (first_line_has _ _ _ _ _ Hsplit) in Ht.
      - intros cur first ls Hsplit Hfirst _. rewrite split_inside in Hsplit by done.
        by rewrite (first_line_has _ _ _ _ _ Hsplit) in Hfirst.
      - intros cur acc first ls Hsplit Ht _ _ _.
        rewrite split_inside in Hsplit by done. apply Hcr in Ht.
        by rewrite (first_line_has _ _ _ _ _ Hsplit) in Ht. }
    assert (is_line_terminator c = false) as Hterm.
    { unfold is_line_terminator. by rewrite !bool_decide_eq_false_2. }
    split; [|split].
    + rewrite split_inside by done. intros Ht.
      destruct (split_head rest) as (tail & ls & Hsplit).
      rewrite Hsplit in Ht |- *. cbn [forallb] in Ht.
      apply andb_true_iff in Ht as [Hfirst Hls].
      destruct (decide (c = "["%char)) as [->|Hopen].
      * change (exec_all true None (String "[" rest))
          with (exec_all false (Some "") rest).
        by apply (IH2 (String "[" "") ""); [apply Hsplit|..].
      * rewrite exec_scan, Hterm by (by rewrite bool_decide_eq_false_2).
        rewrite headers_cons.
        assert (match_header (String.rev (String c "") +:+ tail) = None) as ->.
        { change (String.rev (String c "") +:+ tail) with (String c tail).
          cbn [match_header]. by rewrite bool_decide_eq_false_2. }
        apply (IH1 (String c "") _ _ (Hsplit _)); [by apply Hcr | done].
    + intros cur first ls Hsplit Hfirst Hls. rewrite split_inside in Hsplit by done.
      rewrite exec_scan, Hterm by done. by apply (IH1 _ _ _ Hsplit).
    + intros cur acc first ls Hsplit Ht Hls Hopen Hname.
      rewrite split_inside in Hsplit by done.
      destruct (decide (c = "]"%char)) as [->|Hclose].
      * destruct (split_head rest) as (tail & ls' & Hhead).
        rewrite Hhead in Hsplit. simplify_eq.
        rewrite headers_cons, rev_cons_app, Hname.
        cbn [exec_all until_close]. rewrite bool_decide_eq_true_2 by done.
        assert (exec_all false None rest = omap match_header ls) as ->.
        { apply (IH1 _ _ _ (Hhead (String "]" cur))); [by apply Hcr | done]. }
        by destruct (nonempty acc).
      * rewrite exec_in by done.
        apply (IH2 _ _ _ _ Hsplit Ht Hls).
        -- intros t. rewrite rev_cons_app. apply Hopen.
        -- intros t. rewrite rev_cons_app, Hname. by apply until_close_in.
Qed.

Lemma listing_headers content :
  tidy content = true →
  listOciProfiles (Some content) = omap match_header (split_lines content).
Proof.
  intros Ht. cbn [listOciProfiles].
  by apply (scan_lines (String.length content) content).
Qed.

(** X22. Over a tidy text the two readers of the file agree on what a
    header is. The texts are those of this development: every character
    is below U+0100, so LF and CR are the only line terminators in them
    (a text with the separators U+2028 or U+2029, behind which [^] starts
    a line and at which [split] does not break, is not among them). When
    in such a text no line holds a CR and every line that begins with an
    opening bracket is a header, [listOciProfiles] returns, in file order,
    exactly the names of the header lines that [loadOciProfile] goes
    by. *)
Theorem listing_reads_headers (content : string) :
  tidy content = true →
  listOciProfiles (Some content) = omap match_header (split_lines content).
Proof. apply listing_headers. Qed.

Lemma listing_reads_headers_witness :
  listOciProfiles (Some two_sections_padded)
  = omap match_header (split_lines two_sections_padded).
Proof. apply (listing_reads_headers two_sections_padded). reflexivity. Defined.

Lemma section_lines_nonempty (profileName : jsval) inside lines :
  section_lines profileName inside lines ≠ [] →
  inside = true
  ∨ ∃ line header,
      line ∈ lines ∧ match_header line = Some header
      ∧ strict_eq_str profileName header = true.
Proof.
  revert inside. induction lines as [|line lines IH]; intros inside Hne; [done|].
  cbn [section_lines] in Hne.
  destruct (match_header line) as [header|] eqn:Hh.
  - right. destruct (IH _ Hne) as [Hin|(l & h & Hl & Hlh & Hs)].
    + exists line, header. repeat split; [by left | done..].
    + exists l, h. repeat split; [by right | done..].
  - destruct inside; [by left|]. right.
    destruct (IH _ Hne) as [?|(l & h & Hl & Hlh & Hs)]; [done|].
    exists l, h. repeat split; [by right | done..].
Qed.

Lemma loaded_has_fields (profileName : jsval) content m :
  loadOciProfile profileName (Some content) = Some m →
  m = assign_all (merged_fields profileName (split_lines content)) ∅
  ∧ merged_fields profileName (split_lines content) ≠ [].
Proof.
  unfold loadOciProfile. rewrite profile_loop_merged.
  destruct (bool_decide_reflect
              (0 < size (assign_all (merged_fields profileName (split_lines content)) ∅)))
    as [Hsize|]; [|done].
  intros Heq. simplify_eq. split; [done|]. intros Hnil. rewrite Hnil in Hsize.
  cbn in Hsize. rewrite map_size_empty in Hsize. lia.
Qed.

(** X23. Over a tidy text every profile that loads is on the list. For a
    text whose characters are all below U+0100 (so free of the separators
    U+2028 and U+2029), in which no line holds a CR and every line that
    begins with an opening bracket is a header: when [loadOciProfile]
    finds fields for a name, [listOciProfiles] returns that name. *)
Theorem loadable_is_listed (content name : string) (m : gmap string string) :
  tidy content = true →
  loadOciProfile (JStr name) (Some content) = Some m →
  name ∈ listOciProfiles (Some content).
Proof.
  intros Ht Hload. rewrite listing_headers by done.
  destruct (loaded_has_fields _ _ _ Hload) as [_ Hfields].
  assert (section_lines (JStr name) false (split_lines content) ≠ []) as Hsec.
  { intros Hnil. apply Hfields. unfold merged_fields. by rewrite Hnil. }
  destruct (section_lines_nonempty _ _ _ Hsec) as [?|(line & header & Hl & Hh & Hs)];
    [done|].
  cbn in Hs. apply bool_decide_eq_true in Hs as <-.
  apply list_elem_of_omap. by exists line.
Qed.

Lemma loadable_is_listed_witness :
  "b" ∈ listOciProfiles (Some two_sections_crlf).
Proof.
  apply (loadable_is_listed two_sections_crlf "b" {[ "x" := "1"; "y" := "2" ]}).
  - reflexivity.
  - vm_compute. reflexivity.
Defined.

Lemma exec_all_shape content :
  ∀ bol cand name,
    (∀ acc, cand = Some acc → contains "]"%char acc = false) →
    name ∈ exec_all bol cand content →
    nonempty name = true ∧ contains "]"%char name = false.
Proof.
  induction content as [|c rest IH]; intros bol cand name Hcand Hin.
  { by apply elem_of_nil in Hin. }
  cbn [exec_all] in Hin. destruct cand as [acc|].
  - destruct (bool_decide_reflect (c = "]"%char)) as [->|Hc].
    + destruct (nonempty acc) eqn:Hacc.
      * apply elem_of_cons in Hin as [->|Hin].
        -- by rewrite nonempty_rev, contains_rev, (Hcand acc).
        -- by apply (IH false None).
      * by apply (IH false None).
    + apply (IH false (Some (String c acc))); [|done].
      intros acc' Heq. simplify_eq. cbn [contains].
      by rewrite bool_decide_eq_false_2, (Hcand acc).
  - destruct (bol && bool_decide (c = "["%char)).
    + apply (IH false (Some "")); [|done]. intros acc' Heq. by simplify_eq.
    + by apply (IH (is_line_terminator c) None).
Qed.

(** X24. Every name that [listOciProfiles] returns is non-empty and holds
    no closing bracket, whatever the text of the file. *)
Theorem listed_names_shape (file : option string) (name : string) :
  name ∈ listOciProfiles file →
  name ≠ "" ∧ contains "]"%char name = false.
Proof.
  destruct file as [content|]; cbn [listOciProfiles]; intros Hin.
  - destruct (exec_all_shape content true None name) as [Hne Hb]; [done..|].
    split; [|done]. by intros ->.
  - by apply elem_of_nil in Hin.
Qed.

Lemma listed_names_shape_witness :
  "a" ≠ "" ∧ contains "]"%char "a" = false.
Proof.
  apply (listed_names_shape (Some two_sections) "a").
  apply list_elem_of_In. vm_compute. by left.
Defined.

(** *** Names that run over a line break *)

Lemma split_no_LF n :
  ∀ s cur line,
    String.length s ≤ n →
    contains LF cur = false →
    line ∈ split_lines_go cur s → contains LF line = false.
Proof.
  induction n as [|n IH]; intros s cur line Hlen Hcur Hin.
  { destruct s; [|cbn in Hlen; lia]. cbn in Hin.
    apply list_elem_of_singleton in Hin as ->. by rewrite contains_rev. }
  destruct s as [|c rest].
  { apply (IH "" cur); [cbn; lia | done..]. }
  cbn [String.length] in Hlen.
  destruct (char_cases c rest) as [->|[(-> & rest2 & ->)|(Hlf & Hcrlf)]].
  - rewrite split_LF in Hin. apply elem_of_cons in Hin as [->|Hin].
    + by rewrite contains_rev.
    + apply (IH rest ""); [lia | done..].
  - cbn [String.length] in Hlen. rewrite split_CRLF in Hin.
    apply elem_of_cons in Hin as [->|Hin].
    + by rewrite contains_rev.
    + apply (IH rest2 ""); [lia | done..].
  - rewrite split_inside in Hin by done.
    apply (IH rest (String c cur)); [lia | | done].
    cbn [contains]. by rewrite bool_decide_eq_false_2.
Qed.

Lemma until_close_from c acc s header :
  until_close acc s = Some header →
  contains c header = true →
  contains c acc = true ∨ contains c s = true.
Proof.
  revert acc. induction s as [|c' rest IH]; intros acc Hu Hc; [done|].
  cbn [until_close] in Hu.
  destruct (bool_decide (c' = "]"%char)).
  - destruct (nonempty acc); [|done]. simplify_eq. left. by rewrite contains_rev in Hc.
  - destruct (IH _ Hu Hc) as [Hacc|Hrest].
    + cbn [contains] in Hacc. apply orb_true_iff in Hacc as [Heq|Hacc]; [|by left].
      right. cbn [contains]. by rewrite Heq.
    + right. cbn [contains]. by rewrite Hrest, orb_true_r.
Qed.

Lemma header_from_line c line header :
  match_header line = Some header →
  contains c header = true → contains c line = true.
Proof.
  destruct line as [|c' rest]; [done|]. cbn [match_header].
  destruct (bool_decide (c' = "["%char)); [|done]. intros Hu Hc.
  destruct (until_close_from c _ _ _ Hu Hc) as [?|Hrest]; [done|].
  cbn [contains]. by rewrite Hrest, orb_true_r.
Qed.

(** X25. A name with a line feed (LF) in it never loads.
    [listOciProfiles] may return such a name, from a header whose closing
    bracket stands on a later line, but [loadOciProfile] splits the text
    at every LF and returns not-found for it, whatever the file holds. *)
Theorem broken_name_never_loads (name : string) (file : option string) :
  contains LF name = true →
  loadOciProfile (JStr name) file = None.
Proof.
  intros Hname. destruct file as [content|]; [|done].
  assert (header_absent (JStr name) (split_lines content)) as Habs.
  { intros line header Hline Hh. cbn [strict_eq_str].
    apply bool_decide_eq_false_2. intros ->.
    pose proof (header_from_line LF _ _ Hh Hname) as Hlf.
    by rewrite (split_no_LF _ _ "" line (le_n _) eq_refl Hline) in Hlf. }
  unfold loadOciProfile, merged_fields.
  rewrite profile_loop_merged. unfold merged_fields.
  by rewrite section_lines_header_absent.
Qed.

Lemma broken_name_never_loads_witness :
  listOciProfiles (Some broken_header) = [String "d" (String "e" (String LF "v"))]
  ∧ loadOciProfile (JStr (String "d" (String "e" (String LF "v"))))
      (Some broken_header) = None.
Proof.
  split; [vm_compute; reflexivity|].
  apply (broken_name_never_loads (String "d" (String "e" (String LF "v")))
           (Some broken_header)).
  reflexivity.
Defined.

(** *** Keys and values *)

Lemma trimStart_suffix s : ∃ pre, s = pre +:+ trimStart s.
Proof.
  induction s as [|c s (pre & IH)]; [by exists ""|].
  cbn [trimStart]. destruct (is_white_space c).
  - exists (String c pre). by rewrite app_cons, <- IH.
  - by exists "".
Qed.

Lemma trimStart_clean s :
  match trimStart s with String c _ => is_white_space c | EmptyString => false end
  = false.
Proof.
  induction s as [|c s IH]; [done|]. cbn [trimStart].
  by destruct (is_white_space c) eqn:Hc.
Qed.

Lemma trimmed_trim s : trimmed (trim s) = true.
Proof.
  unfold trimmed, trim, trimEnd. rewrite rev_involutive, trimStart_clean.
  rewrite andb_true_r. apply negb_true_iff.
  destruct (trimStart_suffix (String.rev (trimStart s))) as (pre & Hpre).
  apply (f_equal String.rev) in Hpre.
  rewrite rev_involutive, rev_app_distr in Hpre.
  pose proof (trimStart_clean s) as Hclean. rewrite Hpre in Hclean.
  by destruct (String.rev (trimStart (String.rev (trimStart s)))).
Qed.

Lemma contains_trimStart c s :
  contains c (trimStart s) = true → contains c s = true.
Proof.
  intros Hc. destruct (trimStart_suffix s) as (pre & Hpre).
  rewrite Hpre, contains_app, Hc. apply orb_true_r.
Qed.

Lemma contains_trim c s : contains c (trim s) = true → contains c s = true.
Proof.
  unfold trim, trimEnd. rewrite contains_rev. intros Hc.
  apply contains_trimStart in Hc. rewrite contains_rev in Hc.
  by apply contains_trimStart.
Qed.

Lemma slice_to_indexOf c line idx :
  indexOf c line = Some idx → contains c (slice_to idx line) = false.
Proof.
  revert idx. induction line as [|c' rest IH]; intros idx Hidx; [done|].
  cbn [indexOf] in Hidx.
  destruct (bool_decide_reflect (c' = c)) as [->|Hc]; [by simplify_eq|].
  destruct (indexOf c rest) as [idx'|]; [|done]. cbn in Hidx. simplify_eq.
  cbn [slice_to contains]. rewrite bool_decide_eq_false_2 by done. by apply IH.
Qed.

Lemma key_value_clean line key val :
  key_value line = Some (key, val) →
  contains "="%char key = false ∧ trimmed key = true ∧ trimmed val = true.
Proof.
  unfold key_value. destruct (indexOf "="%char line) as [idx|] eqn:Hidx; [|done].
  intros Heq. simplify_eq. split; [|by rewrite !trimmed_trim].
  destruct (contains "="%char (trim (slice_to idx line))) eqn:Hc; [|done].
  apply contains_trim in Hc. by rewrite (slice_to_indexOf _ _ _ Hidx) in Hc.
Qed.

Lemma assign_all_from fields (m : gmap string string) key val :
  assign_all fields m !! key = Some val →
  m !! key = Some val ∨ (key, val) ∈ fields.
Proof.
  revert m. induction fields as [|[key' val'] fields IH]; intros m Hl; [by left|].
  rewrite assign_all_cons in Hl. destruct (IH _ Hl) as [Hm|Hin]; [|right; by right].
  unfold obj_set in Hm. destruct (bool_decide (key' = "__proto__")); [by left|].
  apply lookup_insert_Some in Hm as [[-> ->]|[_ Hm]]; [right; by left | by left].
Qed.

(** X26. What a loaded profile holds is clean: every key is free of [=],
    and neither a key nor a value begins or ends with white space, and
    each pair comes from a line of the file that reads as that pair. *)
Theorem fields_are_clean (profileName : jsval) (content : string)
    (m : gmap string string) (key val : string) :
  loadOciProfile profileName (Some content) = Some m →
  m !! key = Some val →
  contains "="%char key = false
  ∧ trimmed key = true
  ∧ trimmed val = true
  ∧ ∃ line, line ∈ split_lines content ∧ key_value line = Some (key, val).
Proof.
  intros Hload Hl. destruct (loaded_has_fields _ _ _ Hload) as [-> _].
  apply assign_all_from in Hl as [Hl|Hin]; [by rewrite lookup_empty in Hl|].
  unfold merged_fields in Hin.
  apply list_elem_of_omap in Hin as (line & Hline & Hfield).
  unfold field_of in Hfield. destruct (content_line line); [|done].
  destruct (key_value_clean _ _ _ Hfield) as (Hk & Htk & Htv).
  repeat split; [done..|]. exists line. split; [|done].
  clear -Hline. revert Hline. generalize false as inside.
  induction (split_lines content) as [|l ls IH]; intros inside Hin.
  { by apply elem_of_nil in Hin. }
  cbn [section_lines] in Hin. destruct (match_header l).
  - right. by eapply IH.
  - destruct inside.
    + apply elem_of_cons in Hin as [->|Hin]; [by left | right; by eapply IH].
    + right. by eapply IH.
Qed.

Lemma fields_are_clean_witness :
  contains "="%char "k" = false ∧ trimmed "k" = true ∧ trimmed "v=w" = true.
Proof.
  destruct (fields_are_clean (JStr "a") two_sections_padded {[ "k" := "v=w" ]}
              "k" "v=w") as (Hk & Htk & Htv & _).
  - vm_compute. reflexivity.
  - reflexivity.
  - by repeat split.
Defined.

End ConfigStoreMore.

(** ** From the file to the listing *)

Module Composition.

Import ConfigStore ConfigStoreFacts ConfigStoreMore Backend BackendMore.
Import Frontend FrontendFacts FrontendMore Wire WireFacts.

Lemma tenancy_of_loaded (profileName : jsval) content cfg :
  loadOciProfile profileName (Some content) = Some cfg →
  tenancy_of cfg
  = from_option JStr JUndefined
      (last_value "tenancy" (merged_fields profileName (split_lines content))).
Proof.
  intros Hload. destruct (loaded_has_fields _ _ _ Hload) as [-> _].
  unfold tenancy_of. rewrite assign_all_lookup by done. rewrite lookup_empty.
  by destruct (last_value "tenancy" _).
Qed.

(** X27. The root of a profile is the tenancy written last. In profile
    mode a listing that names no parent, for a profile found in the
    configuration file, makes at most one call. When the provider and the
    client are built it asks the identity service for the compartment
    named by the last [tenancy] field of the sections of the profile, and
    when the profile holds no such field the call is made with an
    undefined compartment id. When building the provider or the client
    throws, no call is made. *)
Theorem listing_defaults_to_tenancy (env : Env) (profile parent : jsval)
    (content : string) (cfg : gmap string string) (st : ServerState) :
  INSTANCE_PRINCIPAL_MODE env = false →
  config_file env = Some content →
  truthy profile = true →
  truthy parent = false →
  loadOciProfile profile (Some content) = Some cfg →
  calls (get_compartments env profile parent st).2
  = calls st
    ++ match client_error env with
       | None =>
           [CallListCompartments (ConfigFileProvider profile)
              (from_option JStr JUndefined
                 (last_value "tenancy" (merged_fields profile (split_lines content))))]
       | Some _ => []
       end.
Proof.
  intros Hmode Hfile Hprofile Hparent Hload.
  unfold get_compartments. rewrite Hmode, Hprofile, Hfile, Hload.
  cbn [negb]. destruct (client_error env); [by rewrite app_nil_r|].
  rewrite call_upstream_log. unfold js_or. rewrite Hparent.
  by rewrite (tenancy_of_loaded _ _ _ Hload).
Qed.

Lemma listing_defaults_to_tenancy_witness :
  calls (get_compartments profile_mode_env (JStr "dev") JUndefined server_start).2
  = [CallListCompartments (ConfigFileProvider (JStr "dev")) (JStr "ocid1.tenancy.x")]
  ∧ calls (get_compartments profile_mode_unbuilt (JStr "dev") JUndefined server_start).2
    = [].
Proof.
  assert (loadOciProfile (JStr "dev") (Some dev_config)
          = Some {[ "tenancy" := "ocid1.tenancy.x"; "region" := "us-ashburn-1" ]})
    as Hload by (vm_compute; reflexivity).
  pose proof (listing_defaults_to_tenancy profile_mode_env (JStr "dev") JUndefined
                dev_config _ server_start eq_refl eq_refl eq_refl eq_refl Hload)
    as Hbuilt.
  pose proof (listing_defaults_to_tenancy profile_mode_unbuilt (JStr "dev") JUndefined
                dev_config _ server_start eq_refl eq_refl eq_refl eq_refl Hload)
    as Hunbuilt.
  split.
  - rewrite Hbuilt. vm_compute. reflexivity.
  - rewrite Hunbuilt. reflexivity.
Defined.




End Composition.
